(** * Simulator2: the node registry, the event router and the computation
    scheduler of [BaseSimulator] (src/BaseSimulator.py).

    The Python class is embedded as a record of its attributes together
    with the state of the collaborators it drives (the worker thread
    object, the tool kit's main-thread task queue, the children of the
    panel and of the window) and a trace of the calls it makes on nodes
    and collaborators.  Methods are state-passing functions; a method that
    can raise returns an [outcome].  Time stamps ([time.time()]) and
    durations are binary64 floats, as in Python. *)

From Stdlib Require Import String List ZArith Lia Bool Arith Relations Permutation.
From Corelib Require Import PrimFloat.
Import ListNotations.
Local Open Scope Z_scope.
#[local] Set Warnings "-inexact-float".

(** ** Nodes *)

(** Modelled from the spec: the module [Simulator2.Nodes] is not part of the
    sources.  Nodes are "polymorphic over capability set {Headless,
    Visual}", and the doc string of [get_nodes] says that "headless is base
    class": every node is an instance of [HeadlessNode], and [VisualNode]
    is a subclass of it. *)
Inductive node_class : Type :=
| HeadlessNode
| VisualNode.

Definition node_class_eqb (a b : node_class) : bool :=
  match a, b with
  | HeadlessNode, HeadlessNode => true
  | VisualNode, VisualNode => true
  | _, _ => false
  end.

(** [issubclass a b]: class [a] is [b] or derives from [b]. *)
Definition issubclass (a b : node_class) : bool :=
  match b with
  | HeadlessNode => true
  | VisualNode => node_class_eqb a VisualNode
  end.

(** A node object: its identity, its class, the attributes [register]
    (read for Visual nodes only) and [simulator] (the owning shell, set by
    [register_node]) that the shell uses, and the name the specification
    gives to nodes. *)
Record node : Type := mkNode {
  node_id : nat;
  name : string;
  class_of : node_class;
  register : bool;
  simulator : option nat
}.

Definition isinstance (n : node) (cl : node_class) : bool :=
  issubclass (class_of n) cl.

(** [n.simulator = self] *)
Definition set_simulator (owner : nat) (n : node) : node :=
  {| node_id := node_id n; name := name n; class_of := class_of n;
     register := register n; simulator := Some owner |}.

(** ** Collaborators *)

(** Children of the panel and of the window. *)
Inductive widget : Type :=
| SceneWidget
| Panel
| Fixed (size : Z)
| NodeWidget (n : node).

(** [threading.Thread]: created, started (and alive), or finished.  A
    started worker is either about to enter [_run_computational_loop] or at
    the head of its [while] loop. *)
Inductive worker_pc : Type :=
| AtEntry
| AtLoop.

Inductive thread_state : Type :=
| Created
| Started (pc : worker_pc)
| Finished.

Inductive exn : Type :=
| RuntimeError   (* join of a thread never started, or of the current thread *)
| ValueError     (* time.sleep of a negative length or of a NaN *)
| OverflowError. (* time.sleep of a length too large for the C time type *)

(** The closure posted with [post_to_main_thread]; the loop posts only
    [display]. *)
Inductive task : Type :=
| display.

Inductive thread_id : Type :=
| UIThread
| WorkerThread.

(** ** Trace of observable calls *)
Inductive event : Type :=
| Call_on_start (n : nat)
| Call_on_exit (n : nat)
| Call_on_start_computation_thread (n : nat)
| Call_on_pause_computational_thread (n : nat)
| Call_step (th : thread_id) (n : nat)
| Set_last_animation_time (now : float)
| Post_to_main_thread (t : task)
| Sleep (d : float)
| Worker_raised (e : exn)
| Worker_returned
| Thread_start
| Thread_join
| Print_thread_names
| Force_redraw
| Application_run
| Application_quit.

(** ** The shell *)
Record BaseSimulator : Type := mkSim {
  ident : nat;                           (* identity of [self] *)
  title : string;
  width : Z;
  height : Z;
  em : Z;                                (* window.theme.font_size *)
  window : list widget;                  (* children of the window *)
  panel : list widget;                   (* children of the panel *)
  _computational_nodes : list node;
  _last_animation_time : float;
  animation_delay_time : float;
  _running : bool;                       (* threading.Event: set or clear *)
  _computational_thread : thread_state;
  main_thread_finished : bool;
  main_thread_queue : list task;         (* closures posted, not yet run *)
  trace : list event;
  join_saw : option (bool * list node)
}.

(** [join_saw] is a history variable, written by [join] alone and read by
    no method: the value of the running event and the registry that the
    last join to return was called with.  It makes the order of the
    statements around a join a property of the state reached. *)

Definition with_nodes (l : list node) (s : BaseSimulator) : BaseSimulator :=
  mkSim (ident s) (title s) (width s) (height s) (em s) (window s) (panel s) l (_last_animation_time s)
        (animation_delay_time s) (_running s) (_computational_thread s)
        (main_thread_finished s) (main_thread_queue s) (trace s) (join_saw s).

Definition with_window (w : list widget) (s : BaseSimulator) : BaseSimulator :=
  mkSim (ident s) (title s) (width s) (height s) (em s) w (panel s) (_computational_nodes s)
        (_last_animation_time s) (animation_delay_time s) (_running s)
        (_computational_thread s) (main_thread_finished s)
        (main_thread_queue s) (trace s) (join_saw s).

Definition with_panel (p : list widget) (s : BaseSimulator) : BaseSimulator :=
  mkSim (ident s) (title s) (width s) (height s) (em s) (window s) p (_computational_nodes s)
        (_last_animation_time s) (animation_delay_time s) (_running s)
        (_computational_thread s) (main_thread_finished s)
        (main_thread_queue s) (trace s) (join_saw s).

Definition with_last (t : float) (s : BaseSimulator) : BaseSimulator :=
  mkSim (ident s) (title s) (width s) (height s) (em s) (window s) (panel s) (_computational_nodes s) t
        (animation_delay_time s) (_running s) (_computational_thread s)
        (main_thread_finished s) (main_thread_queue s) (trace s) (join_saw s).

Definition with_running (b : bool) (s : BaseSimulator) : BaseSimulator :=
  mkSim (ident s) (title s) (width s) (height s) (em s) (window s) (panel s) (_computational_nodes s)
        (_last_animation_time s) (animation_delay_time s) b
        (_computational_thread s) (main_thread_finished s)
        (main_thread_queue s) (trace s) (join_saw s).

Definition with_thread (t : thread_state) (s : BaseSimulator) : BaseSimulator :=
  mkSim (ident s) (title s) (width s) (height s) (em s) (window s) (panel s) (_computational_nodes s)
        (_last_animation_time s) (animation_delay_time s) (_running s) t
        (main_thread_finished s) (main_thread_queue s) (trace s) (join_saw s).

Definition with_finished (b : bool) (s : BaseSimulator) : BaseSimulator :=
  mkSim (ident s) (title s) (width s) (height s) (em s) (window s) (panel s) (_computational_nodes s)
        (_last_animation_time s) (animation_delay_time s) (_running s)
        (_computational_thread s) b (main_thread_queue s) (trace s) (join_saw s).

Definition with_queue (q : list task) (s : BaseSimulator) : BaseSimulator :=
  mkSim (ident s) (title s) (width s) (height s) (em s) (window s) (panel s) (_computational_nodes s)
        (_last_animation_time s) (animation_delay_time s) (_running s)
        (_computational_thread s) (main_thread_finished s) q (trace s) (join_saw s).


Definition with_join_saw (v : option (bool * list node)) (s : BaseSimulator)
  : BaseSimulator :=
  mkSim (ident s) (title s) (width s) (height s) (em s) (window s) (panel s)
        (_computational_nodes s) (_last_animation_time s)
        (animation_delay_time s) (_running s) (_computational_thread s)
        (main_thread_finished s) (main_thread_queue s) (trace s) v.

(** Append the events [evs] to the trace. *)
Definition emit (evs : list event) (s : BaseSimulator) : BaseSimulator :=
  mkSim (ident s) (title s) (width s) (height s) (em s) (window s) (panel s) (_computational_nodes s)
        (_last_animation_time s) (animation_delay_time s) (_running s)
        (_computational_thread s) (main_thread_finished s)
        (main_thread_queue s) (trace s ++ evs) (join_saw s).

(** [__init__]: an empty registry, the scene and the panel as the window's
    children, a thread object that has not been started, the running event
    clear, and a delay of 2.0 between frames.  [font_size] is the font size
    of the window's theme.  The attribute [main_thread_finished] is created
    by the loop itself and never read before. *)
Definition __init__ (self : nat) (title : string) (width height : Z)
    (font_size : Z) : BaseSimulator :=
  {| ident := self; title := title; width := width; height := height;
     em := font_size;
     window := [SceneWidget; Panel]; panel := [];
     _computational_nodes := [];
     _last_animation_time := 0%float; animation_delay_time := 2%float;
     _running := false; _computational_thread := Created;
     main_thread_finished := true; main_thread_queue := [];
     trace := []; join_saw := None |}.

(** ** The registry *)

Definition register_node (n : node) (s : BaseSimulator) : BaseSimulator :=
  let n := set_simulator (ident s) n in
  let s := with_nodes (_computational_nodes s ++ [n]) s in
  if isinstance n VisualNode then
    if register n then
      with_panel (panel s ++ [Fixed (em s); NodeWidget n]) s
    else
      with_window (window s ++ [NodeWidget n]) s
  else s.

Definition get_nodes (cl : node_class) (s : BaseSimulator) : list node :=
  filter (fun node => isinstance node cl) (_computational_nodes s).

(** Fan-out of one life-cycle hook to every registered node, in order. *)
Definition fan_out (call : nat -> event) (s : BaseSimulator) : BaseSimulator :=
  emit (map (fun node => call (node_id node)) (_computational_nodes s)) s.

Definition on_start (s : BaseSimulator) : BaseSimulator :=
  fan_out Call_on_start s.

Definition on_exit (s : BaseSimulator) : BaseSimulator :=
  fan_out Call_on_exit s.

Definition run (s : BaseSimulator) : BaseSimulator :=
  emit [Force_redraw; Application_run] (on_start s).

(** ** The event router *)

(** [gui.Widget.EventCallbackResult] of Open3D. *)
Inductive EventCallbackResult : Type :=
| IGNORED
| HANDLED
| CONSUMED.

Definition EventCallbackResult_eqb (a b : EventCallbackResult) : bool :=
  match a, b with
  | IGNORED, IGNORED => true
  | HANDLED, HANDLED => true
  | CONSUMED, CONSUMED => true
  | _, _ => false
  end.

Section EventRouter.
(** The handlers belong to the node classes.  A handler reads and updates
    the state [World] of the node objects and reports a result; handlers
    do not call back into the shell. *)
Variables World MouseEvent KeyEvent : Type.
Variable on_mouse_3d : node -> MouseEvent -> World -> EventCallbackResult * World.
Variable on_key : node -> KeyEvent -> World -> EventCallbackResult * World.

(** What a dispatch did: the value it returns, the state of the node
    objects afterwards, and the handlers it invoked with what each of them
    reported, in the order of invocation. *)
Definition dispatched : Type :=
  (EventCallbackResult * World * list (node * EventCallbackResult))%type.

(** The loop shared by [_on_mouse_3d] and [_on_key]:
    [for node in nodes: result = handler(node, event); if result ==
    HANDLED: return result] and then [return IGNORED]. *)
Fixpoint first_responder {Ev : Type}
    (handler : node -> Ev -> World -> EventCallbackResult * World)
    (nodes : list node) (ev : Ev) (w : World) : dispatched :=
  match nodes with
  | [] => (IGNORED, w, [])
  | node :: rest =>
      let (result, w1) := handler node ev w in
      if EventCallbackResult_eqb result HANDLED then
        (result, w1, [(node, result)])
      else
        let '(r, w2, log) := first_responder handler rest ev w1 in
        (r, w2, (node, result) :: log)
  end.

Definition _on_mouse_3d (s : BaseSimulator) (ev : MouseEvent) (w : World)
  : dispatched :=
  first_responder on_mouse_3d (_computational_nodes s) ev w.

Definition _on_key (s : BaseSimulator) (ev : KeyEvent) (w : World)
  : dispatched :=
  first_responder on_key (_computational_nodes s) ev w.
End EventRouter.

Arguments first_responder {World Ev} handler nodes ev w.
Arguments _on_mouse_3d {World MouseEvent} on_mouse_3d s ev w.
Arguments _on_key {World KeyEvent} on_key s ev w.

Section FirstResponder.
Variables World Ev : Type.
Variable handler : node -> Ev -> World -> EventCallbackResult * World.

(** Calling the handler of every node of [ns], one after the other. *)
Fixpoint call_all (ns : list node) (ev : Ev) (w : World)
  : list EventCallbackResult * World :=
  match ns with
  | [] => ([], w)
  | n :: ns =>
      let (r, w1) := handler n ev w in
      let (rs, w2) := call_all ns ev w1 in
      (r :: rs, w2)
  end.

(** A dispatch over [nodes] is a first-responder chain: the nodes invoked
    are a prefix of [nodes], each invoked once, in order, on the state
    left by the one before; an invocation that reports [HANDLED] is the
    last one; the value returned is [HANDLED] when some invocation
    reported it and [IGNORED] otherwise, and then every node was
    invoked. *)
Definition first_responder_chain (nodes : list node) (ev : Ev) (w : World)
    (d : dispatched World) : Prop :=
  let '(r, w', log) := d in
  exists rest,
    nodes = map fst log ++ rest /\
    call_all (map fst log) ev w = (map snd log, w') /\
    (forall pre x post, log = pre ++ x :: post -> snd x = HANDLED -> post = []) /\
    (r = HANDLED <-> exists n, In (n, HANDLED) log) /\
    (r <> HANDLED -> r = IGNORED /\ rest = []).
End FirstResponder.

Arguments call_all {World Ev} handler ns ev w.
Arguments first_responder_chain {World Ev} handler nodes ev w d.

(** ** The computation scheduler *)

(** A call returns, raises, or never returns. *)
Inductive outcome : Type :=
| Returned (s : BaseSimulator)
| Raised (e : exn) (s : BaseSimulator)
| Blocked (s : BaseSimulator).

Definition bind (o : outcome) (k : BaseSimulator -> outcome) : outcome :=
  match o with
  | Returned s => k s
  | Raised e s => Raised e s
  | Blocked s => Blocked s
  end.

Notation "x <- c ;; k" := (bind c (fun x => k))
  (at level 61, c at next level, right associativity).

(** Lines 180-181: the first two statements of [_run_computational_loop]. *)
Definition loop_entry (s : BaseSimulator) : BaseSimulator :=
  with_thread (Started AtLoop) (with_finished true (with_last 0%float s)).

(** The length [d], in seconds, fits the C time type once converted to
    nanoseconds. *)
Definition fits_time_t (d : float) : bool :=
  ((-0x1p63 <=? d * 1e9) && (d * 1e9 <=? 0x1p63))%float.

(** What [time.sleep(d)] raises (CPython): [ValueError] for a NaN,
    [OverflowError] for a length that does not fit, [ValueError] for a
    negative length. *)
Definition sleep_error (d : float) : option exn :=
  if is_nan d then Some ValueError
  else if negb (fits_time_t d) then Some OverflowError
  else if (d <? 0)%float then Some ValueError
  else None.

Definition time_sleep (d : float) (s : BaseSimulator) : outcome :=
  match sleep_error d with
  | Some e => Raised e s
  | None => Returned (emit [Sleep d] s)
  end.

(** The argument the loop passes to [time.sleep] (line 202). *)
Definition sleep_length (now : float) (s : BaseSimulator) : float :=
  (now - _last_animation_time s - animation_delay_time s)%float.

(** The nodes the worker steps itself: [not isinstance(node, VisualNode)]. *)
Definition headless_only (s : BaseSimulator) : list node :=
  filter (fun node => negb (isinstance node VisualNode)) (_computational_nodes s).

(** The closure [display] (lines 188-192), run by the UI thread; it reads
    the registry when it runs. *)
Definition run_display (s : BaseSimulator) : BaseSimulator :=
  with_finished true
    (emit (map (fun node => Call_step UIThread (node_id node))
               (filter (fun node => isinstance node VisualNode)
                       (_computational_nodes s))) s).

(** The frame (lines 185-199). *)
Definition frame (now : float) (s : BaseSimulator) : BaseSimulator :=
  let s := emit [Set_last_animation_time now] (with_last now s) in
  let s := emit (map (fun node => Call_step WorkerThread (node_id node))
                     (headless_only s)) s in
  let s := with_finished false s in
  with_queue (main_thread_queue s ++ [display])
             (emit [Post_to_main_thread display] s).

(** The test of line 184 on the clock: [now >= last + delay], in floats. *)
Definition frame_due (now : float) (s : BaseSimulator) : bool :=
  (_last_animation_time s + animation_delay_time s <=? now)%float.

(** The body of the [while] loop (lines 183-202) for the clock reading
    [now]. *)
Definition loop_body (now : float) (s : BaseSimulator) : outcome :=
  if main_thread_finished s && frame_due now s
  then Returned (frame now s)
  else time_sleep (sleep_length now s) s.

(** One step of the worker thread: entering the function, or testing
    [_running] at the head of the loop and then running the body or
    returning.  An exception that leaves the body ends the thread. *)
Definition worker_step (now : float) (s : BaseSimulator) : option BaseSimulator :=
  match _computational_thread s with
  | Started AtEntry => Some (loop_entry s)
  | Started AtLoop =>
      if _running s then
        match loop_body now s with
        | Returned s' => Some s'
        | Raised e s' => Some (with_thread Finished (emit [Worker_raised e] s'))
        | Blocked s' => None
        end
      else Some (with_thread Finished (emit [Worker_returned] s))
  | Created | Finished => None
  end.

(** One step of the UI thread's event loop: it runs the oldest posted
    closure. *)
Definition main_thread_step (s : BaseSimulator) : option BaseSimulator :=
  match main_thread_queue s with
  | [] => None
  | display :: q => Some (run_display (with_queue q s))
  end.

(** [Thread.join()] called on thread [caller]: [RuntimeError] for a thread
    that was never started, and for the thread that calls it (a node
    stepped by the worker that joins the worker); it returns at once for a
    finished thread; otherwise it waits for the worker, which leaves its
    loop at the next test of [_running] once the event is clear, and waits
    for ever while the event is set. *)
Definition join (caller : thread_id) (s : BaseSimulator) : outcome :=
  let seen := Some (_running s, _computational_nodes s) in
  match _computational_thread s with
  | Created => Raised RuntimeError s
  | Finished => Returned (with_join_saw seen (emit [Thread_join] s))
  | Started pc =>
      match caller with
      | WorkerThread => Raised RuntimeError s
      | UIThread =>
          if _running s then Blocked s
          else
            let s := match pc with AtEntry => loop_entry s | AtLoop => s end in
            Returned (with_join_saw seen
                        (emit [Worker_returned; Thread_join]
                           (with_thread Finished s)))
      end
  end.

Definition start_computational_thread (s : BaseSimulator) : BaseSimulator :=
  if negb (_running s) then
    let s := fan_out Call_on_start_computation_thread s in
    let s := with_thread Created s in
    let s := with_running true s in
    emit [Thread_start] (with_thread (Started AtEntry) s)
  else s.

(** [stop_computational_thread] called on thread [caller]. *)
Definition stop_computational_thread (caller : thread_id) (s : BaseSimulator)
  : outcome :=
  let s := with_running false s in
  s <- join caller s ;;
  Returned (fan_out Call_on_pause_computational_thread s).

(** The window-close handler; the tool kit calls it on the UI thread. *)
Definition _quit (s : BaseSimulator) : outcome :=
  let s := on_exit s in
  let s := emit [Print_thread_names] s in
  s <- (if _running s then join UIThread (with_running false s)
        else Returned s) ;;
  let s := with_nodes [] s in
  Returned (emit [Application_quit] s).

(** ** Step relations *)

(** The two threads: the worker takes a step of its loop at some clock
    reading, or the UI thread runs a posted closure. *)
Inductive thread_step : BaseSimulator -> BaseSimulator -> Prop :=
| worker_runs (now : float) (s s' : BaseSimulator) :
    worker_step now s = Some s' -> thread_step s s'
| main_thread_runs (s s' : BaseSimulator) :
    main_thread_step s = Some s' -> thread_step s s'.

(** One run of the cadence loop: steps of the two threads, and the stop
    signal ([_running.clear()]) raised at any moment. *)
Inductive loop_step : BaseSimulator -> BaseSimulator -> Prop :=
| loop_thread_step (s s' : BaseSimulator) :
    thread_step s s' -> loop_step s s'
| loop_stop_signal (s : BaseSimulator) :
    loop_step s (with_running false s).

Definition loop_run : BaseSimulator -> BaseSimulator -> Prop :=
  clos_refl_trans_n1 BaseSimulator loop_step.

(** The scheduler as a whole: registration, [start] and [stop] called on
    the UI thread, and the steps of the two threads.  A [stop] that raises
    leaves the state it reached.  [may_start] restricts the states in which
    [start_computational_thread] is called. *)
Inductive sched_step_when (may_start : BaseSimulator -> Prop)
  : BaseSimulator -> BaseSimulator -> Prop :=
| sched_register (n : node) (s : BaseSimulator) :
    sched_step_when may_start s (register_node n s)
| sched_start (s : BaseSimulator) :
    may_start s ->
    sched_step_when may_start s (start_computational_thread s)
| sched_stop (s s' : BaseSimulator) :
    stop_computational_thread UIThread s = Returned s' ->
    sched_step_when may_start s s'
| sched_stop_raised (e : exn) (s s' : BaseSimulator) :
    stop_computational_thread UIThread s = Raised e s' ->
    sched_step_when may_start s s'
| sched_thread_step (s s' : BaseSimulator) :
    thread_step s s' -> sched_step_when may_start s s'.

Definition reachable_when (may_start : BaseSimulator -> Prop)
    (s : BaseSimulator) : Prop :=
  exists self title width height font_size,
    clos_refl_trans_n1 BaseSimulator (sched_step_when may_start)
      (__init__ self title width height font_size) s.

(** No restriction on [start]. *)
Definition sched_step : BaseSimulator -> BaseSimulator -> Prop :=
  sched_step_when (fun _ => True).

Definition reachable : BaseSimulator -> Prop :=
  reachable_when (fun _ => True).

(** No Visual-step closure of an earlier run waits for the UI thread. *)
Definition no_task_waiting (s : BaseSimulator) : Prop :=
  main_thread_queue s = [].

(** [start_computational_thread] is not called on a Stopped scheduler while
    a closure of an earlier run still waits. *)
Definition start_without_task (s : BaseSimulator) : Prop :=
  _running s = false -> no_task_waiting s.

(** At most one Visual-step closure is outstanding. *)
Definition at_most_one_task (s : BaseSimulator) : Prop :=
  (length (main_thread_queue s) <= 1)%nat.

(** ** Reading a trace *)

Definition exited_nodes (tr : list event) : list nat :=
  flat_map (fun e => match e with Call_on_exit n => [n] | _ => [] end) tr.

Definition started_nodes (tr : list event) : list nat :=
  flat_map (fun e => match e with
                     | Call_on_start_computation_thread n => [n]
                     | _ => []
                     end) tr.

Definition paused_nodes (tr : list event) : list nat :=
  flat_map (fun e => match e with
                     | Call_on_pause_computational_thread n => [n]
                     | _ => []
                     end) tr.


Definition is_thread_start (e : event) : bool :=
  match e with Thread_start => true | _ => false end.

Definition is_thread_join (e : event) : bool :=
  match e with Thread_join => true | _ => false end.

Definition count (p : event -> bool) (tr : list event) : nat :=
  length (filter p tr).


(** The steps of the worker on the Headless-only nodes, in registration
    order. *)
Definition headless_steps (s : BaseSimulator) : list event :=
  map (fun node => Call_step WorkerThread (node_id node)) (headless_only s).

(** The events the two threads emit in their steps. *)
Definition thread_event (e : event) : bool :=
  match e with
  | Call_step _ _ | Set_last_animation_time _ | Post_to_main_thread _
  | Sleep _ | Worker_raised _ | Worker_returned => true
  | _ => false
  end.

(** ** Example shells *)

Definition nodeA : node := mkNode 0 "A" HeadlessNode false None.
Definition nodeB : node := mkNode 1 "B" VisualNode true None.

(** A shell with a Headless and a Visual node, not started. *)
Definition shell0 : BaseSimulator :=
  register_node nodeB (register_node nodeA (__init__ 0 "Base" 1920 1080 12)).

(** ** Statements about the scheduler *)

(** Between [s] and [s'] one worker thread was started and
    [on_start_computation_thread] was called once for each entry of the
    registry, in order; [s'] is Running. *)
Definition started_once (s s' : BaseSimulator) : Prop :=
  _running s' = true /\
  _computational_nodes s' = _computational_nodes s /\
  exists delta,
    trace s' = trace s ++ delta /\
    started_nodes delta = map node_id (_computational_nodes s) /\
    count is_thread_start delta = 1%nat.

(** Between [s] and [s'] the shell was closed: [on_exit] was called once
    for each entry of the registry of [s], in order, the worker thread was
    joined once if [s] was Running and not at all otherwise, and [s'] is
    Stopped with an empty registry. *)
Definition closed_once (s s' : BaseSimulator) : Prop :=
  _computational_nodes s' = [] /\
  _running s' = false /\
  exists delta,
    trace s' = trace s ++ delta /\
    exited_nodes delta = map node_id (_computational_nodes s) /\
    count is_thread_join delta = (if _running s then 1 else 0)%nat.

(** Closing the Running shell [s] pauses every node that was told of the
    start of the computation thread. *)
Definition close_pauses_started_nodes (s : BaseSimulator) : Prop :=
  _running s = true ->
  exists s', _quit s = Returned s' /\
    forall n, In n (started_nodes (trace s)) -> In n (paused_nodes (trace s')).

(** In the trace [delta] of a run every frame is one block: the time stamp,
    then the steps [hs] of the worker, then the post to the UI thread.
    Read from the post: it comes right after the time stamp and the steps.
    Read from the time stamp: the steps and the post come right after it. *)
Definition framed (hs : list event) (delta : list event) : Prop :=
  (forall pre post,
     delta = pre ++ Post_to_main_thread display :: post ->
     exists pre' t, pre = pre' ++ Set_last_animation_time t :: hs) /\
  (forall pre t post,
     delta = pre ++ Set_last_animation_time t :: post ->
     exists post', post = hs ++ Post_to_main_thread display :: post').


(** At most one posted closure waits for the UI thread, and none while the
    worker may start a frame. *)
Definition one_task_in_flight (s : BaseSimulator) : Prop :=
  at_most_one_task s /\
  (main_thread_finished s = true -> main_thread_queue s = []) /\
  (_computational_thread s = Started AtEntry -> main_thread_queue s = []).

(** How a step from [s] to [s'] treats the frame-in-flight flag (a frame is
    in flight while [main_thread_finished] is false): a closure is posted
    only with the flag clear, and the flag is set with it; the flag is
    cleared only by the closure completing or by the worker entering its
    loop. *)
Definition flag_discipline (s s' : BaseSimulator) : Prop :=
  ((length (main_thread_queue s) < length (main_thread_queue s'))%nat ->
   main_thread_finished s = true /\
   main_thread_finished s' = false /\
   main_thread_queue s' = main_thread_queue s ++ [display]) /\
  (main_thread_finished s = false -> main_thread_finished s' = true ->
   main_thread_queue s = display :: main_thread_queue s' \/
   _computational_thread s = Started AtEntry).


(** A run of the example shell with two frames, at times 5 and 7. *)
Definition run_start : BaseSimulator := start_computational_thread shell0.

Definition first_frame : BaseSimulator :=
  frame 5%float (loop_entry run_start).

Definition two_frames : BaseSimulator :=
  frame 7%float (run_display (with_queue [] first_frame)).


(** The steps of the worker in a frame on the registry [l], read off the
    classes of the nodes: one step for each node of class [HeadlessNode],
    in the order of [l]. *)
Definition worker_steps_of (l : list node) : list event :=
  map (fun n => Call_step WorkerThread (node_id n))
      (filter (fun n => match class_of n with
                        | HeadlessNode => true
                        | VisualNode => false
                        end) l).




(** The state a call leaves behind. *)
Definition state_of (o : outcome) : BaseSimulator :=
  match o with
  | Returned s => s
  | Raised _ s => s
  | Blocked s => s
  end.

(** The example shell stopped after its first frame, before the UI thread
    has run the posted closure, then started again; the new worker runs a
    frame at time 6. *)
Definition stopped_in_flight : BaseSimulator :=
  state_of (stop_computational_thread UIThread first_frame).

Definition restarted : BaseSimulator :=
  frame 6%float (loop_entry (start_computational_thread stopped_in_flight)).

(** * The rest of the shell *)

(** ** Registering several nodes *)

(** [register_node] called on the nodes of [l], first to last. *)
Definition register_nodes (l : list node) (s : BaseSimulator) : BaseSimulator :=
  fold_left (fun s n => register_node n s) l s.

(** Where [register_node] puts the widget of a node. *)
Definition in_panel (n : node) : bool :=
  isinstance n VisualNode && register n.

Definition in_window (n : node) : bool :=
  isinstance n VisualNode && negb (register n).

(** The children of the panel and of the window that belong to the
    registry [l]. *)
Definition panel_of (size : Z) (l : list node) : list widget :=
  flat_map (fun n => [Fixed size; NodeWidget n]) (filter in_panel l).

Definition window_of (l : list node) : list widget :=
  [SceneWidget; Panel] ++ map NodeWidget (filter in_window l).

Definition ui_matches_registry (s : BaseSimulator) : Prop :=
  panel s = panel_of (em s) (_computational_nodes s) /\
  window s = window_of (_computational_nodes s).

(** ** The layout handler *)

Module gui.
(** [gui.Rect] *)
Record Rect : Type := mkRect { x : Z; y : Z; width : Z; height : Z }.
End gui.

(** [_on_layout]: the nodes whose [create_layout] is called with the layout
    context, in order, and the frame given to the scene.  [content_rect] is
    the content rectangle of the window and [panel_rect] what
    [panel.setup_layout(window)] returns; the class of the panel is not
    part of the sources. *)
Definition _on_layout (s : BaseSimulator) (content_rect panel_rect : gui.Rect)
  : list node * gui.Rect :=
  let laid_out :=
    filter (fun node => isinstance node VisualNode) (_computational_nodes s) in
  let frame := content_rect in
  (laid_out,
   gui.mkRect (gui.x frame) (gui.y frame)
              (gui.x panel_rect - gui.x frame)
              (gui.height frame - gui.y frame)).

(** ** The life of a shell *)

(** What the UI thread and the worker do to a shell once its nodes are
    registered: [run], [start] and [stop] of the scheduler and the close
    handler, all called on the UI thread, and the steps of the two threads.
    A call that raises leaves the state it reached. *)
Inductive lifecycle_step : BaseSimulator -> BaseSimulator -> Prop :=
| lifecycle_run (s : BaseSimulator) :
    lifecycle_step s (run s)
| lifecycle_start (s : BaseSimulator) :
    lifecycle_step s (start_computational_thread s)
| lifecycle_stop (s : BaseSimulator) :
    lifecycle_step s (state_of (stop_computational_thread UIThread s))
| lifecycle_quit (s : BaseSimulator) :
    lifecycle_step s (state_of (_quit s))
| lifecycle_thread_step (s s' : BaseSimulator) :
    thread_step s s' -> lifecycle_step s s'.



(** The node an event is a call on. *)
Definition callee (e : event) : option nat :=
  match e with
  | Call_on_start n | Call_on_exit n | Call_on_start_computation_thread n
  | Call_on_pause_computational_thread n | Call_step _ n => Some n
  | _ => None
  end.

(** The calls among [evs] are on nodes of the registry of [s]. *)
Definition calls_registered (s : BaseSimulator) (evs : list event) : Prop :=
  forall e n, In e evs -> callee e = Some n ->
              In n (map node_id (_computational_nodes s)).




(** A step is made on the thread of its node: a step on the worker is the
    step of a registered node of class [HeadlessNode], a step on the UI
    thread that of a registered node of class [VisualNode]. *)
Definition on_own_thread (s : BaseSimulator) (e : event) : Prop :=
  match e with
  | Call_step th n =>
      exists node,
        In node (_computational_nodes s) /\ node_id node = n /\
        class_of node = match th with
                        | WorkerThread => HeadlessNode
                        | UIThread => VisualNode
                        end
  | _ => True
  end.

(** [s'] has the registry and the widgets of [s]. *)
Definition same_registry (s s' : BaseSimulator) : Prop :=
  _computational_nodes s' = _computational_nodes s /\
  panel s' = panel s /\ window s' = window s /\
  em s' = em s /\ ident s' = ident s.

(** * Exceptions (src/Exceptions.py) *)

Module Exceptions.
Local Open Scope string_scope.

(** An exception object: the attributes set by its [__init__] and the
    message passed to [Exception.__init__], which [str(e)] returns. *)
Record DuplicateNameException : Type := mkDuplicateNameException {
  name : string;
  message : string
}.

Definition DuplicateNameException_init (name : string) : DuplicateNameException :=
  {| name := name;
     message := "Name already exists in rendering window: " ++ name |}.

Definition NullMeshObjectException_message : string :=
  "There was no mesh file foudn".
End Exceptions.

(** * Decorators (src/tools/Debugging.py) *)

Module Debugging.

(** An exception in flight: whether its class derives from [Exception]
    (and not only from [BaseException]), and [str(e)]. *)
Record exception : Type := mkException {
  derives_Exception : bool;
  str : string
}.

Inductive result (R : Type) : Type :=
| Returns (r : R)
| Raises (e : exception).

Arguments Returns {R} r.
Arguments Raises {R} e.

(** What [print] writes: a string, or the difference of two clock
    readings. *)
Inductive printed : Type :=
| Printed_str (s : string)
| Printed_time (d : Z).

(** The process around the decorated function: the clock that
    [time.time()] reads, the standard output, and the calls of
    [gui.Application.instance.quit()]. *)
Record process : Type := mkProcess {
  clock : Z;
  stdout : list printed;
  quit_calls : nat
}.

(** A Python function applied to its arguments: it returns or raises, and
    may let time pass, print, or ask the application to quit. *)
Definition callable (A R : Type) : Type := A -> process -> result R * process.

Definition print (x : printed) (p : process) : process :=
  {| clock := clock p; stdout := stdout p ++ [x]; quit_calls := quit_calls p |}.

Definition application_quit (p : process) : process :=
  {| clock := clock p; stdout := stdout p; quit_calls := S (quit_calls p) |}.

(** [Open3DErrorProtect(func)]: the wrapper has no [return] statement, so
    its value is [None]; [except Exception] lets other exceptions
    through. *)
Definition Open3DErrorProtect {A R : Type} (func : callable A R)
  : callable A (option R) :=
  fun args p =>
    match func args p with
    | (Returns _, p1) => (Returns None, p1)
    | (Raises e, p1) =>
        if derives_Exception e then
          (Returns None, application_quit (print (Printed_str (str e)) p1))
        else (Raises e, p1)
    end.

(** [timeit(func)] *)
Definition timeit {A R : Type} (func : callable A R) : callable A R :=
  fun args p =>
    let now := clock p in
    match func args p with
    | (Returns r, p1) => (Returns r, print (Printed_time (clock p1 - now)) p1)
    | (Raises e, p1) => (Raises e, p1)
    end.
End Debugging.

(** * Device selection (src/o3dElements/__init__.py) *)

Module o3dElements.
Local Open Scope string_scope.

(** The build of Open3D whose [rendering], [gui] and [geometry] modules are
    imported. *)
Inductive pybind : Type :=
| cpu_pybind
| cuda_pybind.

(** What importing the package leaves: the flag [cuda], the modules, the
    device, and what was printed. *)
Record package : Type := mkPackage {
  cuda : bool;
  modules : pybind;
  device : string;
  printed : list string
}.

(** The body of the module, for the command line [argv] and the value
    [DEVICE_API] of [open3d.__DEVICE_API__]. *)
Definition import (argv : list string) (DEVICE_API : string) : package :=
  let cuda := existsb (String.eqb "cuda") argv in
  if String.eqb DEVICE_API "cuda" then
    if cuda then
      {| cuda := cuda; modules := cuda_pybind; device := "CUDA:0";
         printed := ["Using Cuda"] |}
    else
      {| cuda := cuda; modules := cuda_pybind; device := "CPU:0";
         printed := [] |}
  else
    {| cuda := cuda; modules := cpu_pybind; device := "CPU:0";
       printed := [] |}.
End o3dElements.

(** * The frame-in-flight gate *)

(** The gate between the worker and the UI thread: at most one closure
    waits, none while the worker may start a frame, and one exactly while
    [main_thread_finished] is false. *)
Definition gate_holds (s : BaseSimulator) : Prop :=
  one_task_in_flight s /\
  (main_thread_finished s = false -> main_thread_queue s = [display]).





(** * Properties *)

(** ** The registry *)

Lemma isinstance_set_simulator (owner : nat) (n : node) (cl : node_class) :
  isinstance (set_simulator owner n) cl = isinstance n cl.
Proof. reflexivity. Qed.

Lemma isinstance_HeadlessNode (n : node) : isinstance n HeadlessNode = true.
Proof. reflexivity. Qed.

Lemma isinstance_VisualNode (n : node) :
  isinstance n VisualNode = true <-> class_of n = VisualNode.
Proof.
  unfold isinstance, issubclass. destruct (class_of n); simpl; split; congruence.
Qed.

Lemma not_isinstance_VisualNode (n : node) :
  negb (isinstance n VisualNode) = true <-> class_of n = HeadlessNode.
Proof.
  unfold isinstance, issubclass. destruct (class_of n); simpl; split; congruence.
Qed.

(** C9: [register_node n] appends [n], with its owner set to the shell, at
    the end of the registry; a Visual node whose [register] flag is true is
    added to the panel after a spacer of size [em], a Visual node whose flag
    is false becomes a child of the window, and nothing else changes.  The
    call cannot fail, whatever is registered already. *)
Theorem register_node_spec (n : node) (s : BaseSimulator) :
  let n' := set_simulator (ident s) n in
  let s' := register_node n s in
  _computational_nodes s' = _computational_nodes s ++ [n'] /\
  simulator n' = Some (ident s) /\
  (node_id n', name n', class_of n', register n')
    = (node_id n, name n, class_of n, register n) /\
  panel s' = panel s ++
    (if isinstance n VisualNode && register n
     then [Fixed (em s); NodeWidget n'] else []) /\
  window s' = window s ++
    (if isinstance n VisualNode && negb (register n)
     then [NodeWidget n'] else []) /\
  (ident s', em s', trace s', _running s', _computational_thread s')
    = (ident s, em s, trace s, _running s, _computational_thread s).
Proof.
  unfold register_node. rewrite isinstance_set_simulator.
  destruct (isinstance n VisualNode), (register n) eqn:R; simpl; rewrite ?R;
    simpl; rewrite ?app_nil_r; repeat split; reflexivity.
Qed.

(** Two nodes of the same name are both accepted. *)
Example register_node_same_name :
  let a := mkNode 0 "lidar" HeadlessNode false None in
  let b := mkNode 1 "lidar" VisualNode true None in
  _computational_nodes (register_node b (register_node a (__init__ 7 "Base" 1920 1080 12)))
  = [set_simulator 7 a; set_simulator 7 b].
Proof. reflexivity. Qed.

Lemma trace_frame (now : float) (s : BaseSimulator) :
  trace (frame now s)
  = trace s ++ Set_last_animation_time now
      :: map (fun node => Call_step WorkerThread (node_id node)) (headless_only s)
      ++ [Post_to_main_thread display].
Proof.
  unfold frame. simpl. rewrite <- !app_assoc. reflexivity.
Qed.

Lemma headless_steps_by_class (s : BaseSimulator) :
  headless_steps s = worker_steps_of (_computational_nodes s).
Proof.
  unfold headless_steps, headless_only, worker_steps_of. f_equal.
  apply filter_ext. intros n. unfold isinstance, issubclass.
  destruct (class_of n); reflexivity.
Qed.

(** C10: [get_nodes cl] selects by instance-of, subclasses included: it
    returns, in registration order, the registered nodes whose class is
    [cl] or derives from it.  So [get_nodes HeadlessNode] is the whole
    registry, Visual nodes included, [get_nodes VisualNode] is the Visual
    nodes alone, and as soon as a Visual node is registered no class gives
    the Headless-only nodes; the loop steps on the worker exactly the nodes
    that are not instances of [VisualNode]. *)
Theorem get_nodes_instance_of (s : BaseSimulator) :
  (forall cl,
     get_nodes cl s
     = filter (fun n => match cl, class_of n with
                        | HeadlessNode, _ => true
                        | VisualNode, VisualNode => true
                        | VisualNode, HeadlessNode => false
                        end) (_computational_nodes s)) /\
  get_nodes HeadlessNode s = _computational_nodes s /\
  (forall n, In n (_computational_nodes s) -> class_of n = VisualNode ->
             In n (get_nodes HeadlessNode s)) /\
  (forall n, In n (get_nodes VisualNode s)
             <-> In n (_computational_nodes s) /\ class_of n = VisualNode) /\
  ((exists n, In n (_computational_nodes s) /\ class_of n = VisualNode) ->
   forall cl, get_nodes cl s <> headless_only s) /\
  headless_only s
    = filter (fun n => match class_of n with
                       | HeadlessNode => true
                       | VisualNode => false
                       end) (_computational_nodes s) /\
  (forall n, In n (headless_only s)
             <-> In n (_computational_nodes s) /\ class_of n = HeadlessNode) /\
  (forall now, trace (frame now s)
     = trace s ++ Set_last_animation_time now
         :: worker_steps_of (_computational_nodes s)
         ++ [Post_to_main_thread display]).
Proof.
  assert (Sel : forall cl,
             get_nodes cl s
             = filter (fun n => match cl, class_of n with
                                | HeadlessNode, _ => true
                                | VisualNode, VisualNode => true
                                | VisualNode, HeadlessNode => false
                                end) (_computational_nodes s)).
  { intros cl. unfold get_nodes. apply filter_ext. intros n.
    unfold isinstance, issubclass. destruct cl, (class_of n); reflexivity. }
  assert (All : get_nodes HeadlessNode s = _computational_nodes s).
  { rewrite Sel. generalize (_computational_nodes s) as l.
    induction l as [|n l IH]; simpl; [reflexivity|f_equal; exact IH]. }
  assert (Only : forall n, In n (headless_only s)
             <-> In n (_computational_nodes s) /\ class_of n = HeadlessNode).
  { intros n. unfold headless_only. rewrite filter_In.
    rewrite not_isinstance_VisualNode. reflexivity. }
  split; [exact Sel|].
  split; [exact All|].
  split; [intros n Hin _; rewrite All; exact Hin|].
  split.
  { intros n. rewrite Sel, filter_In.
    destruct (class_of n); split; intros [Hin H]; split;
      try exact Hin; try reflexivity; discriminate. }
  split.
  { intros [n [Hin Hv]] cl Heq.
    assert (Hn : In n (get_nodes cl s)).
    { rewrite Sel. apply filter_In. split; [exact Hin|].
      rewrite Hv. destruct cl; reflexivity. }
    rewrite Heq in Hn. apply Only in Hn. destruct Hn as [_ Hc]. congruence. }
  split.
  { unfold headless_only. apply filter_ext. intros n.
    unfold isinstance, issubclass. destruct (class_of n); reflexivity. }
  split; [exact Only|].
  intros now. rewrite trace_frame.
  fold (headless_steps s). rewrite headless_steps_by_class. reflexivity.
Qed.

(** ** The event router *)

Section EventRouterProperties.
Variables World Ev : Type.
Variable handler : node -> Ev -> World -> EventCallbackResult * World.

Lemma EventCallbackResult_eqb_HANDLED (r : EventCallbackResult) :
  EventCallbackResult_eqb r HANDLED = true <-> r = HANDLED.
Proof. destruct r; simpl; split; congruence. Qed.

Lemma first_responder_is_chain (nodes : list node) (ev : Ev) (w : World) :
  first_responder_chain handler nodes ev w
    (first_responder handler nodes ev w).
Proof.
  revert w. induction nodes as [|n nodes IH]; intros w; simpl.
  - exists []. repeat split; try congruence.
    + intros pre x post E. destruct pre; discriminate.
    + intros [n []].
  - destruct (handler n ev w) as [r w1] eqn:Hn.
    destruct (EventCallbackResult_eqb r HANDLED) eqn:Hr.
    + apply EventCallbackResult_eqb_HANDLED in Hr. subst r.
      exists nodes. simpl. rewrite Hn. repeat split; try congruence.
      * intros pre x post E _. destruct pre as [|y pre].
        -- injection E as _ E. symmetry. exact E.
        -- injection E as _ E. destruct pre; discriminate.
      * intros _. exists n. left. reflexivity.
    + assert (Hne : r <> HANDLED).
      { intros E. apply EventCallbackResult_eqb_HANDLED in E. congruence. }
      specialize (IH w1).
      destruct (first_responder handler nodes ev w1) as [[r' w2] log].
      destruct IH as [rest [Hnodes [Hcall [Hlast [Hiff Hign]]]]].
      exists rest. simpl. rewrite Hn, Hcall. split; [|split; [|split; [|split]]].
      * rewrite Hnodes at 1. reflexivity.
      * reflexivity.
      * intros pre x post E Hx. destruct pre as [|y pre].
        -- injection E as E _. subst x. simpl in Hx. congruence.
        -- injection E as _ E. eapply Hlast; eassumption.
      * rewrite Hiff. split; intros [m Hm]; exists m.
        -- right. exact Hm.
        -- destruct Hm as [E|Hm]; [congruence|exact Hm].
      * exact Hign.
Qed.
End EventRouterProperties.

(** C7: both [_on_mouse_3d] and [_on_key] are first-responder chains over
    the registry: handlers are invoked in registration order, nothing is
    invoked after the first handler that reports [HANDLED], the dispatcher
    returns [HANDLED] when some handler reported it, and returns [IGNORED],
    after asking every node, when none did. *)
Theorem event_dispatch_first_responder
    (World MouseEvent KeyEvent : Type)
    (on_mouse_3d : node -> MouseEvent -> World -> EventCallbackResult * World)
    (on_key : node -> KeyEvent -> World -> EventCallbackResult * World)
    (s : BaseSimulator) :
  (forall ev w,
     first_responder_chain on_mouse_3d (_computational_nodes s) ev w
       (_on_mouse_3d on_mouse_3d s ev w)) /\
  (forall ev w,
     first_responder_chain on_key (_computational_nodes s) ev w
       (_on_key on_key s ev w)).
Proof.
  split; intros ev w; apply first_responder_is_chain.
Qed.

(** Nodes A, B, C where B reports [HANDLED]: A then B are invoked, C is
    not. *)
Example dispatch_A_B_C :
  let A := mkNode 0 "A" HeadlessNode false None in
  let B := mkNode 1 "B" VisualNode true None in
  let C := mkNode 2 "C" HeadlessNode false None in
  let on_key (n : node) (ev : unit) (w : list nat) :=
    (if Nat.eqb (node_id n) 1 then HANDLED else IGNORED, w ++ [node_id n]) in
  let s := register_node C (register_node B (register_node A (__init__ 0 "Base" 1920 1080 12))) in
  _on_key on_key s tt []
  = (HANDLED, [0%nat; 1%nat],
     [(set_simulator 0 A, IGNORED); (set_simulator 0 B, HANDLED)]).
Proof. reflexivity. Qed.

(** ** The steps of the two threads *)

Lemma with_running_id (s : BaseSimulator) :
  with_running (_running s) s = s.
Proof. destruct s; reflexivity. Qed.

Lemma worker_step_cases (now : float) (s s' : BaseSimulator) :
  worker_step now s = Some s' ->
  (_computational_thread s = Started AtEntry /\ s' = loop_entry s) \/
  (_computational_thread s = Started AtLoop /\ _running s = true /\
   main_thread_finished s = true /\
   frame_due now s = true /\
   s' = frame now s) \/
  (_computational_thread s = Started AtLoop /\ _running s = true /\
   main_thread_finished s && frame_due now s = false /\
   sleep_error (sleep_length now s) = None /\
   s' = emit [Sleep (sleep_length now s)] s) \/
  (exists e,
     _computational_thread s = Started AtLoop /\ _running s = true /\
     main_thread_finished s && frame_due now s = false /\
     sleep_error (sleep_length now s) = Some e /\
     s' = with_thread Finished (emit [Worker_raised e] s)) \/
  (_computational_thread s = Started AtLoop /\ _running s = false /\
   s' = with_thread Finished (emit [Worker_returned] s)).
Proof.
  unfold worker_step.
  destruct (_computational_thread s) as [|[|]|] eqn:Ht; try discriminate.
  - intros E. injection E as <-. left. split; reflexivity.
  - destruct (_running s) eqn:Hr.
    + unfold loop_body.
      destruct (main_thread_finished s && frame_due now s) eqn:Hc.
      * intros E. injection E as <-. right. left.
        apply andb_true_iff in Hc. destruct Hc as [Hf Hd].
        repeat split; assumption.
      * unfold time_sleep.
        destruct (sleep_error (sleep_length now s)) as [e|] eqn:Hs.
        -- intros E. injection E as <-. right. right. right. left.
           exists e. repeat split; assumption.
        -- intros E. injection E as <-. right. right. left.
           repeat split; assumption.
    + intros E. injection E as <-. right. right. right. right.
      repeat split; reflexivity.
Qed.

Lemma main_thread_step_cases (s s' : BaseSimulator) :
  main_thread_step s = Some s' ->
  exists q, main_thread_queue s = display :: q /\
            s' = run_display (with_queue q s).
Proof.
  unfold main_thread_step. destruct (main_thread_queue s) as [|[] q].
  - discriminate.
  - intros E. injection E as <-. exists q. split; reflexivity.
Qed.

(** What a step of a thread leaves alone, and what it may emit. *)
Lemma thread_step_frame_cond (s s' : BaseSimulator) :
  thread_step s s' ->
  _computational_nodes s' = _computational_nodes s /\
  _running s' = _running s /\
  animation_delay_time s' = animation_delay_time s /\
  exists evs, trace s' = trace s ++ evs /\ forallb thread_event evs = true.
Proof.
  intros [now s1 s2 H | s1 s2 H].
  - apply worker_step_cases in H.
    destruct H as [[_ ->] | [(_ & _ & _ & _ & ->) | [(_ & _ & _ & _ & ->)
                 | [(e & _ & _ & _ & _ & ->) | (_ & _ & ->)]]]];
      repeat split; try reflexivity.
    + exists []. simpl. rewrite app_nil_r. split; reflexivity.
    + eexists. split; [apply trace_frame|]. simpl.
      rewrite forallb_app. simpl. rewrite andb_true_r.
      apply forallb_forall. intros e He. apply in_map_iff in He.
      destruct He as [n [<- _]]. reflexivity.
    + eexists. split; reflexivity.
    + eexists. split; reflexivity.
    + eexists. split; reflexivity.
  - apply main_thread_step_cases in H. destruct H as [q [_ ->]].
    repeat split; try reflexivity.
    eexists. split; [reflexivity|].
    apply forallb_forall. intros e He. apply in_map_iff in He.
    destruct He as [n [<- _]]. reflexivity.
Qed.

Lemma flat_map_nil_of_forallb {A : Type} (p : event -> bool)
    (f : event -> list A) (evs : list event) :
  (forall e, p e = true -> f e = []) ->
  forallb p evs = true -> flat_map f evs = [].
Proof.
  intros Hf. induction evs as [|e evs IH]; simpl; [reflexivity|].
  intros H. apply andb_true_iff in H. destruct H as [He Hevs].
  rewrite (Hf e He), (IH Hevs). reflexivity.
Qed.

Lemma count_app (p : event -> bool) (l1 l2 : list event) :
  count p (l1 ++ l2) = (count p l1 + count p l2)%nat.
Proof. unfold count. rewrite filter_app, length_app. reflexivity. Qed.

Lemma count_zero_of_forallb (p q : event -> bool) (evs : list event) :
  (forall e, p e = true -> q e = false) ->
  forallb p evs = true -> count q evs = 0%nat.
Proof.
  intros Hpq. unfold count. induction evs as [|e evs IH]; simpl; [reflexivity|].
  intros H. apply andb_true_iff in H. destruct H as [He Hevs].
  rewrite (Hpq e He). exact (IH Hevs).
Qed.

Lemma thread_event_not_start (e : event) :
  thread_event e = true -> is_thread_start e = false.
Proof. destruct e; simpl; congruence. Qed.

Lemma thread_event_not_join (e : event) :
  thread_event e = true -> is_thread_join e = false.
Proof. destruct e; simpl; congruence. Qed.

Lemma started_nodes_app (l1 l2 : list event) :
  started_nodes (l1 ++ l2) = started_nodes l1 ++ started_nodes l2.
Proof. apply flat_map_app. Qed.

Lemma exited_nodes_app (l1 l2 : list event) :
  exited_nodes (l1 ++ l2) = exited_nodes l1 ++ exited_nodes l2.
Proof. apply flat_map_app. Qed.

Lemma paused_nodes_app (l1 l2 : list event) :
  paused_nodes (l1 ++ l2) = paused_nodes l1 ++ paused_nodes l2.
Proof. apply flat_map_app. Qed.


Lemma started_nodes_thread_events (evs : list event) :
  forallb thread_event evs = true -> started_nodes evs = [].
Proof.
  apply flat_map_nil_of_forallb. intros e. destruct e; simpl; congruence.
Qed.

Lemma started_nodes_fan_out (l : list node) :
  started_nodes (map (fun n => Call_on_start_computation_thread (node_id n)) l)
  = map node_id l.
Proof. induction l as [|n l IH]; simpl; [reflexivity|]. f_equal. exact IH. Qed.

Lemma count_start_fan_out (call : nat -> event) (l : list node) :
  (forall n, is_thread_start (call n) = false) ->
  count is_thread_start (map (fun n => call (node_id n)) l) = 0%nat.
Proof.
  intros H. unfold count. induction l as [|n l IH]; simpl; [reflexivity|].
  rewrite H. exact IH.
Qed.

(** ** Starting *)

Lemma start_when_stopped (s : BaseSimulator) :
  _running s = false ->
  _running (start_computational_thread s) = true /\
  _computational_thread (start_computational_thread s) = Started AtEntry /\
  _computational_nodes (start_computational_thread s) = _computational_nodes s /\
  trace (start_computational_thread s)
  = trace s
    ++ map (fun n => Call_on_start_computation_thread (node_id n))
           (_computational_nodes s)
    ++ [Thread_start].
Proof.
  intros Hr. unfold start_computational_thread. rewrite Hr. simpl.
  rewrite <- app_assoc. repeat split; reflexivity.
Qed.

Lemma start_when_running (s : BaseSimulator) :
  _running s = true -> start_computational_thread s = s.
Proof. intros Hr. unfold start_computational_thread. rewrite Hr. reflexivity. Qed.

Lemma started_once_start (s : BaseSimulator) :
  _running s = false -> started_once s (start_computational_thread s).
Proof.
  intros Hr. destruct (start_when_stopped s Hr) as (Hrun & _ & Hn & Ht).
  split; [exact Hrun|]. split; [exact Hn|].
  eexists. split; [exact Ht|]. split.
  - rewrite started_nodes_app, started_nodes_fan_out. apply app_nil_r.
  - rewrite count_app. rewrite count_start_fan_out by reflexivity. reflexivity.
Qed.

Lemma started_once_thread_step (s s1 s2 : BaseSimulator) :
  started_once s s1 -> thread_step s1 s2 -> started_once s s2.
Proof.
  intros (Hrun & Hn & delta & Ht & Hs & Hc) Hstep.
  apply thread_step_frame_cond in Hstep.
  destruct Hstep as (Hn' & Hr' & _ & evs & Ht' & Hevs).
  split; [congruence|]. split; [congruence|].
  exists (delta ++ evs). split; [|split].
  - rewrite Ht', Ht. symmetry. apply app_assoc.
  - rewrite started_nodes_app, Hs, (started_nodes_thread_events evs Hevs).
    apply app_nil_r.
  - rewrite count_app, Hc.
    rewrite (count_zero_of_forallb thread_event is_thread_start evs
               thread_event_not_start Hevs).
    reflexivity.
Qed.

(** C6: from a Stopped scheduler, [start_computational_thread] called
    twice, with or without steps of the two threads in between, starts one
    worker thread and calls [on_start_computation_thread] once for each
    registered node; the second call changes nothing. *)
Theorem start_twice_starts_once (s s2 : BaseSimulator)
    (Hstopped : _running s = false)
    (Hbetween : clos_refl_trans_n1 BaseSimulator thread_step
                  (start_computational_thread s) s2) :
  start_computational_thread (start_computational_thread s)
  = start_computational_thread s /\
  start_computational_thread s2 = s2 /\
  started_once s (start_computational_thread s2).
Proof.
  assert (H : started_once s s2).
  { induction Hbetween as [|s1 s2 Hstep _ IH].
    - apply started_once_start. exact Hstopped.
    - eapply started_once_thread_step; eassumption. }
  split; [|split].
  - apply start_when_running. apply start_when_stopped. exact Hstopped.
  - apply start_when_running. apply H.
  - rewrite start_when_running by apply H. exact H.
Qed.

Lemma start_twice_starts_once_witness :
  _running shell0 = false /\
  started_once shell0
    (start_computational_thread
       (loop_entry (start_computational_thread shell0))).
Proof.
  split; [reflexivity|].
  apply (start_twice_starts_once shell0
           (loop_entry (start_computational_thread shell0))).
  - reflexivity.
  - eapply Relation_Operators.rtn1_trans; [|apply rtn1_refl].
    apply (worker_runs 0). reflexivity.
Defined.

(** ** Stopping *)

Lemma stop_never_started (s : BaseSimulator) :
  _running s = false -> _computational_thread s = Created ->
  stop_computational_thread UIThread s = Raised RuntimeError s.
Proof.
  destruct s; simpl. intros -> ->. reflexivity.
Qed.

Lemma stop_already_stopped (s : BaseSimulator) :
  _running s = false -> _computational_thread s = Finished ->
  stop_computational_thread UIThread s
  = Returned (fan_out Call_on_pause_computational_thread
                (with_join_saw (Some (false, _computational_nodes s))
                   (emit [Thread_join] s))).
Proof.
  destruct s; simpl. intros -> ->. reflexivity.
Qed.

(** C1: what [stop_computational_thread] does on a Stopped scheduler.  On
    a shell that was never started the join raises [RuntimeError]; on a
    shell that was started and stopped, a second stop joins again and calls
    [on_pause_computational_thread] on every registered node again. *)
Theorem stop_when_stopped_pauses_again :
  (_running shell0 = false /\
   stop_computational_thread UIThread shell0 = Raised RuntimeError shell0) /\
  exists s1 s2,
    stop_computational_thread UIThread (start_computational_thread shell0) = Returned s1 /\
    _running s1 = false /\
    stop_computational_thread UIThread s1 = Returned s2 /\
    trace s2 = trace s1 ++ [Thread_join;
                            Call_on_pause_computational_thread 0;
                            Call_on_pause_computational_thread 1] /\
    paused_nodes (trace s1) = [0%nat; 1%nat] /\
    paused_nodes (trace s2) = [0%nat; 1%nat; 0%nat; 1%nat].
Proof.
  split.
  - split; vm_compute; reflexivity.
  - eexists. eexists.
    split; [vm_compute; reflexivity|].
    split; [reflexivity|].
    split; [vm_compute; reflexivity|].
    repeat split.
Qed.

(** ** The argument of [time.sleep] *)

(** C2: the loop passes [now - last - delay] to [time.sleep], the opposite
    of the time left until [last + delay].  After a frame at time 100, with
    a delay of 2, the clock reading 101 leaves one second until the next
    frame; the worker calls [time.sleep(-1)], which raises [ValueError] and
    ends the thread.  At the reading 104, the closure of the frame still
    waiting, the time left is -2 and the worker sleeps 2. *)
Theorem sleep_length_has_opposite_sign :
  let s := frame 100%float (loop_entry (start_computational_thread shell0)) in
  _last_animation_time s = 100%float /\ animation_delay_time s = 2%float /\
  main_thread_finished s = false /\
  ((_last_animation_time s + animation_delay_time s - 101)%float = 1%float /\
   sleep_length 101 s = (-1)%float /\
   loop_body 101 s = Raised ValueError s /\
   worker_step 101 s
   = Some (with_thread Finished (emit [Worker_raised ValueError] s))) /\
  ((_last_animation_time s + animation_delay_time s - 104)%float = (-2)%float /\
   sleep_length 104 s = 2%float /\
   loop_body 104 s = Returned (emit [Sleep 2] s)).
Proof. vm_compute. repeat split. Qed.

(** ** Closing the window *)

Lemma exited_nodes_fan_out (l : list node) :
  exited_nodes (map (fun n => Call_on_exit (node_id n)) l) = map node_id l.
Proof. induction l as [|n l IH]; simpl; [reflexivity|]. f_equal. exact IH. Qed.

Lemma paused_nodes_fan_out_exit (l : list node) :
  paused_nodes (map (fun n => Call_on_exit (node_id n)) l) = [].
Proof. induction l as [|n l IH]; simpl; [reflexivity|]. exact IH. Qed.

Lemma count_join_fan_out_exit (l : list node) :
  count is_thread_join (map (fun n => Call_on_exit (node_id n)) l) = 0%nat.
Proof. unfold count. induction l as [|n l IH]; simpl; [reflexivity|]. exact IH. Qed.

(** The close handler on a Stopped shell. *)
Lemma quit_when_stopped (s : BaseSimulator) :
  _running s = false ->
  _quit s
  = Returned (emit [Application_quit]
                (with_nodes [] (emit [Print_thread_names] (on_exit s)))).
Proof. intros Hr. unfold _quit. simpl. rewrite Hr. reflexivity. Qed.

(** The close handler on a Running shell: the events of the join are
    [Thread_join] alone when the worker has ended already, preceded by the
    return of the worker otherwise. *)
Lemma quit_when_running (s : BaseSimulator) :
  _running s = true -> _computational_thread s <> Created ->
  exists s' w,
    _quit s = Returned s' /\
    (w = [] \/ w = [Worker_returned]) /\
    trace s' = trace s
               ++ map (fun n => Call_on_exit (node_id n)) (_computational_nodes s)
               ++ [Print_thread_names] ++ w ++ [Thread_join; Application_quit] /\
    _running s' = false /\
    _computational_thread s' = Finished /\
    _computational_nodes s' = [].
Proof.
  intros Hr Ht. unfold _quit, join. simpl. rewrite Hr. simpl.
  destruct (_computational_thread s) as [|pc|] eqn:E; [congruence| |].
  - eexists. exists [Worker_returned]. split; [reflexivity|].
    split; [right; reflexivity|].
    destruct pc; simpl; rewrite <- !app_assoc; repeat split; reflexivity.
  - eexists. exists []. split; [reflexivity|].
    split; [left; reflexivity|].
    simpl; rewrite <- !app_assoc; repeat split; try reflexivity. exact E.
Qed.

Lemma closed_once_quit (s : BaseSimulator) :
  (_running s = true -> _computational_thread s <> Created) ->
  exists s1, _quit s = Returned s1 /\ closed_once s s1.
Proof.
  intros Hwf. destruct (_running s) eqn:Hr.
  - destruct (quit_when_running s Hr (Hwf eq_refl))
      as (s1 & w & Hq & Hw & Ht & Hrun & _ & Hn).
    exists s1. split; [exact Hq|]. split; [exact Hn|]. split; [exact Hrun|].
    eexists. split; [exact Ht|]. split.
    + rewrite exited_nodes_app, exited_nodes_fan_out.
      destruct Hw as [-> | ->]; simpl; apply app_nil_r.
    + rewrite count_app, count_join_fan_out_exit, Hr.
      destruct Hw as [-> | ->]; reflexivity.
  - rewrite (quit_when_stopped s Hr). eexists. split; [reflexivity|].
    split; [reflexivity|]. split; [exact Hr|].
    exists (map (fun n => Call_on_exit (node_id n)) (_computational_nodes s)
            ++ [Print_thread_names; Application_quit]).
    split; [|split].
    + simpl. rewrite <- !app_assoc. reflexivity.
    + rewrite exited_nodes_app, exited_nodes_fan_out. apply app_nil_r.
    + rewrite count_app, count_join_fan_out_exit, Hr. reflexivity.
Qed.

(** C4: the close handler called twice in a row.  The first call fans
    [on_exit] out to the nodes once and, the scheduler being Running, joins
    the worker once (a Stopped scheduler has no worker to join); the second
    call finds the registry empty and the scheduler Stopped: it calls no
    node, joins nothing and leaves registry, thread and flag as they are,
    so that the two calls together still count one fan-out and one join. *)
Theorem quit_twice_closes_once (s : BaseSimulator)
    (Hwf : _running s = true -> _computational_thread s <> Created) :
  exists s1 s2,
    _quit s = Returned s1 /\
    _quit s1 = Returned s2 /\
    closed_once s s1 /\
    closed_once s s2 /\
    s2 = emit [Print_thread_names; Application_quit] s1.
Proof.
  destruct (closed_once_quit s Hwf) as (s1 & Hq & Hc).
  destruct Hc as (Hn & Hr & delta & Ht & He & Hj).
  assert (Hq2 : _quit s1
                = Returned (emit [Print_thread_names; Application_quit] s1)).
  { rewrite (quit_when_stopped s1 Hr).
    unfold on_exit, fan_out, emit, with_nodes. simpl. rewrite Hn. simpl.
    rewrite app_nil_r, <- app_assoc. reflexivity. }
  exists s1, (emit [Print_thread_names; Application_quit] s1).
  split; [exact Hq|]. split; [exact Hq2|].
  split; [split; [exact Hn|split; [exact Hr|exists delta; auto]]|].
  split; [|reflexivity].
  split; [exact Hn|]. split; [exact Hr|].
  exists (delta ++ [Print_thread_names; Application_quit]). split; [|split].
  - simpl. rewrite Ht. symmetry. apply app_assoc.
  - rewrite exited_nodes_app, He. apply app_nil_r.
  - rewrite count_app, Hj. apply Nat.add_0_r.
Qed.

Lemma quit_twice_closes_once_witness :
  let s := start_computational_thread shell0 in
  (_running s = true -> _computational_thread s <> Created) /\
  exists s1 s2,
    _quit s = Returned s1 /\ _quit s1 = Returned s2 /\
    closed_once s s1 /\ closed_once s s2 /\
    s2 = emit [Print_thread_names; Application_quit] s1.
Proof.
  split.
  - intros _. discriminate.
  - apply (quit_twice_closes_once (start_computational_thread shell0)).
    intros _. discriminate.
Defined.

(** C5 as stated fails: closing the started shell calls
    [on_pause_computational_thread] on no node. *)
Lemma quit_running_pauses_nothing :
  ~ close_pauses_started_nodes (start_computational_thread shell0).
Proof.
  intros H. destruct (H eq_refl) as (s' & Hq & Hp).
  vm_compute in Hq. injection Hq as <-.
  apply (Hp 0%nat). vm_compute. left. reflexivity.
Qed.

Lemma quit_join_saw (s s' : BaseSimulator) :
  _running s = true -> _quit s = Returned s' ->
  join_saw s' = Some (false, _computational_nodes s).
Proof.
  intros Hr. unfold _quit, join. simpl. rewrite Hr. simpl.
  destruct (_computational_thread s) as [|pc|]; [discriminate| |].
  - destruct pc; simpl; intros H; injection H as <-; reflexivity.
  - simpl. intros H. injection H as <-. reflexivity.
Qed.

(** C5, amended: on a Running shell the close handler calls [on_exit] on
    every registered node, then joins the worker, and clears the registry
    after that: the join is called with the [_running] event already clear
    and the registry still whole, and the registry is empty at the end;
    [on_pause_computational_thread] is called on no node. *)
Theorem quit_while_running_joins_without_pause (s : BaseSimulator)
    (Hrun : _running s = true)
    (Hthread : _computational_thread s <> Created) :
  exists s' w,
    _quit s = Returned s' /\
    (w = [] \/ w = [Worker_returned]) /\
    trace s' = trace s
               ++ map (fun n => Call_on_exit (node_id n)) (_computational_nodes s)
               ++ [Print_thread_names] ++ w ++ [Thread_join; Application_quit] /\
    paused_nodes (trace s') = paused_nodes (trace s) /\
    join_saw s' = Some (false, _computational_nodes s) /\
    _running s' = false /\
    _computational_thread s' = Finished /\
    _computational_nodes s' = [].
Proof.
  destruct (quit_when_running s Hrun Hthread)
    as (s' & w & Hq & Hw & Ht & Hr & Hth & Hn).
  exists s', w. split; [exact Hq|]. split; [exact Hw|]. split; [exact Ht|].
  split; [|split; [exact (quit_join_saw s s' Hrun Hq)|auto]].
  rewrite Ht, !paused_nodes_app, paused_nodes_fan_out_exit.
  destruct Hw as [-> | ->]; simpl; apply app_nil_r.
Qed.

Lemma quit_while_running_witness :
  let s := start_computational_thread shell0 in
  _running s = true /\ _computational_thread s <> Created /\
  exists s', _quit s = Returned s' /\
             paused_nodes (trace s') = paused_nodes (trace s) /\
             join_saw s' = Some (false, _computational_nodes shell0) /\
             _computational_nodes s' = [] /\
             _computational_thread s' = Finished.
Proof.
  split; [reflexivity|]. split; [discriminate|].
  destruct (quit_while_running_joins_without_pause
              (start_computational_thread shell0) eq_refl)
    as (s' & w & Hq & _ & _ & Hp & Hj & _ & Hth & Hn).
  - discriminate.
  - exists s'. split; [exact Hq|]. split; [exact Hp|].
    split; [exact Hj|]. split; [exact Hn|exact Hth].
Defined.

(** ** Frames in the trace of a run *)



Section Framed.
Variable hs : list event.
Hypothesis hs_steps : forall e, In e hs -> exists th n, e = Call_step th n.

Lemma framed_nil : framed hs [].
Proof.
  split.
  - intros pre post E. destruct pre; discriminate.
  - intros pre t post E. destruct pre; discriminate.
Qed.


End Framed.













Lemma loop_run_two_frames : loop_run run_start two_frames.
Proof.
  unfold loop_run.
  apply Relation_Operators.rtn1_trans
    with (y := run_display (with_queue [] first_frame)).
  { apply loop_thread_step, (worker_runs 7). vm_compute. reflexivity. }
  apply Relation_Operators.rtn1_trans with (y := first_frame).
  { apply loop_thread_step, main_thread_runs. vm_compute. reflexivity. }
  apply Relation_Operators.rtn1_trans with (y := loop_entry run_start).
  { apply loop_thread_step, (worker_runs 5). vm_compute. reflexivity. }
  apply Relation_Operators.rtn1_trans with (y := run_start).
  { apply loop_thread_step, (worker_runs 0). vm_compute. reflexivity. }
  apply rtn1_refl.
Defined.



(** ** Posted closures *)

Lemma one_task_thread_step (s s' : BaseSimulator) :
  one_task_in_flight s -> thread_step s s' -> one_task_in_flight s'.
Proof.
  unfold one_task_in_flight, at_most_one_task.
  intros Hinv Hstep.
  destruct Hstep as [now s1 s2 H | s1 s2 H];
    destruct Hinv as (Hlen & Hfin & Hent).
  - apply worker_step_cases in H.
    destruct H as [[Hth ->] | [(Hth & _ & Hf & _ & ->) | [(Hth & _ & _ & _ & ->)
                 | [(e & Hth & _ & _ & _ & ->) | (Hth & _ & ->)]]]]; simpl.
    + rewrite (Hent Hth). repeat split; auto.
    + rewrite (Hfin Hf). simpl. repeat split; auto; try discriminate.
      rewrite Hth. discriminate.
    + repeat split; assumption.
    + repeat split; try assumption. discriminate.
    + repeat split; try assumption. discriminate.
  - apply main_thread_step_cases in H. destruct H as [q [Hq ->]].
    rewrite Hq in Hlen. simpl in Hlen.
    assert (q = []) as -> by (destruct q; [reflexivity|simpl in Hlen; lia]).
    simpl. repeat split; auto.
Qed.

Lemma flag_discipline_same (s s' : BaseSimulator) :
  main_thread_queue s' = main_thread_queue s ->
  main_thread_finished s' = main_thread_finished s ->
  flag_discipline s s'.
Proof.
  intros Hq Hf. unfold flag_discipline. rewrite Hq, Hf. split.
  - intros H. lia.
  - intros H1 H2. congruence.
Qed.

Lemma flag_discipline_thread_step (s s' : BaseSimulator) :
  thread_step s s' -> flag_discipline s s'.
Proof.
  intros [now s1 s2 H | s1 s2 H].
  - apply worker_step_cases in H.
    destruct H as [[Hth ->] | [(Hth & _ & Hf & _ & ->) | [(Hth & _ & _ & _ & ->)
                 | [(e & Hth & _ & _ & _ & ->) | (Hth & _ & ->)]]]];
      try (apply flag_discipline_same; reflexivity).
    + split; simpl.
      * intros H. lia.
      * intros _ _. right. exact Hth.
    + split; simpl.
      * intros _. repeat split. exact Hf.
      * intros _ H. discriminate.
  - apply main_thread_step_cases in H. destruct H as [q [Hq ->]].
    split; simpl.
    + rewrite Hq. simpl. intros H. lia.
    + intros _ _. left. exact Hq.
Qed.

Lemma stop_effect (s : BaseSimulator) :
  stop_computational_thread UIThread s
  = match _computational_thread s with
    | Created => Raised RuntimeError (with_running false s)
    | Finished =>
        Returned (fan_out Call_on_pause_computational_thread
                    (with_join_saw (Some (false, _computational_nodes s))
                       (emit [Thread_join] (with_running false s))))
    | Started pc =>
        Returned (fan_out Call_on_pause_computational_thread
                    (with_join_saw (Some (false, _computational_nodes s))
                       (emit [Worker_returned; Thread_join]
                          (with_thread Finished
                             match pc with
                             | AtEntry => loop_entry (with_running false s)
                             | AtLoop => with_running false s
                             end))))
    end.
Proof.
  unfold stop_computational_thread, join. simpl.
  destruct (_computational_thread s) as [|pc|]; [reflexivity| |reflexivity].
  destruct pc; reflexivity.
Qed.

Lemma register_node_scheduler (n : node) (s : BaseSimulator) :
  main_thread_queue (register_node n s) = main_thread_queue s /\
  main_thread_finished (register_node n s) = main_thread_finished s /\
  _computational_thread (register_node n s) = _computational_thread s.
Proof.
  unfold register_node.
  destruct (isinstance (set_simulator (ident s) n) VisualNode),
           (register (set_simulator (ident s) n));
    repeat split; reflexivity.
Qed.

Lemma start_scheduler (s : BaseSimulator) :
  main_thread_queue (start_computational_thread s) = main_thread_queue s /\
  main_thread_finished (start_computational_thread s) = main_thread_finished s.
Proof.
  unfold start_computational_thread. destruct (_running s); split; reflexivity.
Qed.

Lemma one_task_sched_step (s s' : BaseSimulator) :
  one_task_in_flight s -> sched_step_when start_without_task s s' ->
  one_task_in_flight s'.
Proof.
  intros Hinv Hstep.
  destruct Hstep as [n s | s Hmay | s s' Hstop | e s s' Hstop | s s' Hstep].
  - destruct (register_node_scheduler n s) as (Hq & Hf & Hth).
    unfold one_task_in_flight, at_most_one_task. rewrite Hq, Hf, Hth.
    exact Hinv.
  - destruct (_running s) eqn:Hr.
    + rewrite (start_when_running s Hr). exact Hinv.
    + destruct (start_scheduler s) as (Hq & Hf).
      unfold one_task_in_flight, at_most_one_task. rewrite Hq, Hf.
      rewrite (Hmay Hr). simpl. repeat split; auto.
  - rewrite stop_effect in Hstop.
    destruct Hinv as (Hlen & Hfin & Hent).
    unfold one_task_in_flight, at_most_one_task.
    destruct (_computational_thread s) as [|[|]|] eqn:Hth;
      try discriminate; injection Hstop as <-; simpl.
    + rewrite (Hent eq_refl). repeat split; auto.
    + repeat split; try assumption. discriminate.
    + repeat split; try assumption. rewrite Hth. discriminate.
  - rewrite stop_effect in Hstop.
    destruct (_computational_thread s) eqn:Hth; try discriminate.
    injection Hstop as _ <-.
    destruct Hinv as (Hlen & Hfin & Hent).
    unfold one_task_in_flight, at_most_one_task. simpl. rewrite Hth.
    repeat split; try assumption. discriminate.
  - eapply one_task_thread_step; eassumption.
Qed.

Lemma flag_discipline_sched_step (s s' : BaseSimulator) :
  sched_step s s' -> flag_discipline s s'.
Proof.
  intros Hstep.
  destruct Hstep as [n s | s _ | s s' Hstop | e s s' Hstop | s s' Hstep].
  - apply flag_discipline_same; apply register_node_scheduler.
  - apply flag_discipline_same; apply start_scheduler.
  - rewrite stop_effect in Hstop.
    destruct (_computational_thread s) as [|[|]|] eqn:Hth;
      try discriminate; injection Hstop as <-;
      try (apply flag_discipline_same; reflexivity).
    split; simpl.
    + intros H. lia.
    + intros _ _. right. exact Hth.
  - rewrite stop_effect in Hstop.
    destruct (_computational_thread s) eqn:Hth; try discriminate.
    injection Hstop as _ <-. apply flag_discipline_same; reflexivity.
  - apply flag_discipline_thread_step. exact Hstep.
Qed.

(** Within one run of the loop that begins with no closure waiting, at
    most one posted closure waits for the UI thread. *)
Lemma single_run_one_task (s0 s : BaseSimulator) :
  _computational_thread s0 = Started AtEntry ->
  no_task_waiting s0 ->
  loop_run s0 s ->
  at_most_one_task s.
Proof.
  intros Hth Hq Hrun.
  assert (H : one_task_in_flight s).
  { induction Hrun as [|s1 s2 Hstep _ IH].
    - unfold one_task_in_flight, at_most_one_task. rewrite Hq. simpl.
      repeat split; auto.
    - destruct Hstep as [s1 s2 Hstep | s1].
      + eapply one_task_thread_step; eassumption.
      + exact IH. }
  apply H.
Qed.

(** Building example runs backwards from their last state. *)
Ltac last_step before :=
  apply Relation_Operators.rtn1_trans with (y := before).

Ltac by_worker now :=
  apply sched_thread_step, (worker_runs now); vm_compute; reflexivity.

Lemma reachable_first_frame (may_start : BaseSimulator -> Prop) :
  may_start shell0 -> reachable_when may_start first_frame.
Proof.
  intros Hmay. exists 0%nat, "Base"%string, 1920, 1080, 12.
  last_step (loop_entry run_start); [by_worker 5%float|].
  last_step run_start; [by_worker 0%float|].
  last_step shell0; [apply sched_start; exact Hmay|].
  last_step (register_node nodeA (__init__ 0 "Base" 1920 1080 12));
    [apply sched_register|].
  last_step (__init__ 0 "Base" 1920 1080 12); [apply sched_register|].
  apply rtn1_refl.
Qed.

Lemma reachable_restarted : reachable restarted.
Proof.
  destruct (reachable_first_frame (fun _ => True) I)
    as (self & title & width & height & font_size & Hrun).
  exists self, title, width, height, font_size.
  last_step (loop_entry (start_computational_thread stopped_in_flight));
    [by_worker 6%float|].
  last_step (start_computational_thread stopped_in_flight); [by_worker 0%float|].
  last_step stopped_in_flight; [apply sched_start; exact I|].
  last_step first_frame; [apply sched_stop; vm_compute; reflexivity|].
  exact Hrun.
Qed.

(** C3: a state of the scheduler with two Visual-step closures waiting.
    The shell is stopped from the UI thread after its first frame, while
    the closure of that frame still waits and the flag says so; started
    again, the new worker sets [main_thread_finished] on entering the loop
    and posts a second closure. *)
Theorem restart_posts_second_task :
  reachable restarted /\
  main_thread_queue first_frame = [display] /\
  main_thread_finished first_frame = false /\
  stop_computational_thread UIThread first_frame = Returned stopped_in_flight /\
  main_thread_queue stopped_in_flight = [display] /\
  main_thread_finished
    (loop_entry (start_computational_thread stopped_in_flight)) = true /\
  main_thread_queue restarted = [display; display] /\
  ~ at_most_one_task restarted.
Proof.
  split; [exact reachable_restarted|].
  repeat (split; [vm_compute; reflexivity|]).
  unfold at_most_one_task. vm_compute. intros H.
  apply (Nat.nle_succ_diag_l 1). exact H.
Qed.

(** * Further properties *)

(** ** The registry *)

Lemma register_node_fields (n : node) (s : BaseSimulator) :
  _computational_nodes (register_node n s)
  = _computational_nodes s ++ [set_simulator (ident s) n] /\
  panel (register_node n s)
  = panel s ++ (if in_panel n
                then [Fixed (em s); NodeWidget (set_simulator (ident s) n)]
                else []) /\
  window (register_node n s)
  = window s ++ (if in_window n
                 then [NodeWidget (set_simulator (ident s) n)] else []) /\
  em (register_node n s) = em s /\
  ident (register_node n s) = ident s.
Proof.
  unfold register_node, in_panel, in_window.
  rewrite isinstance_set_simulator.
  destruct (isinstance n VisualNode), (register n) eqn:R; simpl; rewrite ?R;
    simpl; rewrite ?app_nil_r; repeat split; reflexivity.
Qed.

(** X1: the typed lookup after a registration is the lookup before it,
    followed by the new node when it is an instance of the class asked
    for. *)
Theorem get_nodes_register_node (cl : node_class) (n : node) (s : BaseSimulator) :
  get_nodes cl (register_node n s)
  = get_nodes cl s
    ++ (if isinstance n cl then [set_simulator (ident s) n] else []).
Proof.
  unfold get_nodes.
  destruct (register_node_fields n s) as (-> & _).
  rewrite filter_app. simpl. rewrite isinstance_set_simulator.
  destruct (isinstance n cl); reflexivity.
Qed.

Lemma register_nodes_fields (l : list node) (s : BaseSimulator) :
  _computational_nodes (register_nodes l s)
  = _computational_nodes s ++ map (set_simulator (ident s)) l /\
  ident (register_nodes l s) = ident s.
Proof.
  revert s. induction l as [|n l IH]; intros s; simpl.
  - rewrite app_nil_r. split; reflexivity.
  - destruct (IH (register_node n s)) as (Hn & Hi).
    destruct (register_node_fields n s) as (Hn1 & _ & _ & _ & Hi1).
    unfold register_nodes in *. simpl. rewrite Hn, Hi, Hn1, Hi1.
    rewrite <- app_assoc. split; reflexivity.
Qed.

(** X2: after any sequence of registrations the registry lists the nodes in
    the order of the calls, after those that were there, each owned by the
    shell; and the typed lookup on a new shell returns, in that order, the
    registered nodes that are instances of the class. *)
Theorem register_nodes_keeps_order (l : list node) (s : BaseSimulator) :
  _computational_nodes (register_nodes l s)
  = _computational_nodes s ++ map (set_simulator (ident s)) l /\
  (forall n, In n (map (set_simulator (ident s)) l) ->
             simulator n = Some (ident s)) /\
  (forall cl self title width height font_size,
     get_nodes cl
       (register_nodes l (__init__ self title width height font_size))
     = map (set_simulator self) (filter (fun n => isinstance n cl) l)).
Proof.
  split; [apply register_nodes_fields|]. split.
  - intros n Hn. apply in_map_iff in Hn. destruct Hn as [m [<- _]]. reflexivity.
  - intros cl self title width height font_size. unfold get_nodes.
    destruct (register_nodes_fields l
                (__init__ self title width height font_size)) as (-> & _).
    simpl. induction l as [|n l IH]; simpl; [reflexivity|].
    rewrite isinstance_set_simulator.
    destruct (isinstance n cl); simpl; rewrite IH; reflexivity.
Qed.

(** ** Widgets and registry *)

Lemma same_registry_refl (s : BaseSimulator) : same_registry s s.
Proof. repeat split. Qed.

Lemma same_registry_thread_step (s s' : BaseSimulator) :
  thread_step s s' -> same_registry s s'.
Proof.
  intros [now s1 s2 H | s1 s2 H].
  - apply worker_step_cases in H.
    destruct H as [[_ ->] | [(_ & _ & _ & _ & ->) | [(_ & _ & _ & _ & ->)
                 | [(e & _ & _ & _ & _ & ->) | (_ & _ & ->)]]]];
      repeat split.
  - apply main_thread_step_cases in H. destruct H as [q [_ ->]].
    repeat split.
Qed.

Lemma same_registry_start (s : BaseSimulator) :
  same_registry s (start_computational_thread s).
Proof.
  unfold start_computational_thread. destruct (_running s); repeat split.
Qed.

Lemma same_registry_stop (s : BaseSimulator) :
  same_registry s (state_of (stop_computational_thread UIThread s)).
Proof.
  rewrite stop_effect.
  destruct (_computational_thread s) as [|[|]|]; repeat split.
Qed.

Lemma ui_matches_same_registry (s s' : BaseSimulator) :
  same_registry s s' -> ui_matches_registry s -> ui_matches_registry s'.
Proof.
  intros (Hn & Hp & Hw & He & _) [Hpanel Hwindow].
  unfold ui_matches_registry. rewrite Hn, Hp, Hw, He. split; assumption.
Qed.

Lemma ui_matches_register_node (n : node) (s : BaseSimulator) :
  ui_matches_registry s -> ui_matches_registry (register_node n s).
Proof.
  intros [Hpanel Hwindow].
  destruct (register_node_fields n s) as (Hn & Hp & Hw & He & _).
  unfold ui_matches_registry, panel_of, window_of.
  rewrite Hn, Hp, Hw, He, !filter_app, flat_map_app, map_app, Hpanel, Hwindow.
  unfold panel_of, window_of. simpl.
  change (in_panel (set_simulator (ident s) n)) with (in_panel n).
  change (in_window (set_simulator (ident s) n)) with (in_window n).
  split.
  - destruct (in_panel n); reflexivity.
  - destruct (in_window n); reflexivity.
Qed.

(** X3: whatever the scheduler does, the widgets follow the registry: the
    panel holds, in registration order, a spacer of the font size and then
    the widget for each Visual node registered with its flag set; the
    window holds the scene, the panel, and then the other Visual nodes;
    Headless nodes have no widget. *)
Theorem widgets_follow_registry (s : BaseSimulator) (Hreach : reachable s) :
  panel s = panel_of (em s) (_computational_nodes s) /\
  window s = window_of (_computational_nodes s).
Proof.
  destruct Hreach as (self & title & width & height & font_size & Hrun).
  change (ui_matches_registry s).
  induction Hrun as [|s1 s2 Hstep _ IH].
  - split; reflexivity.
  - destruct Hstep as [n s1 | s1 _ | s1 s2 Hstop | e s1 s2 Hstop | s1 s2 Hstep].
    + apply ui_matches_register_node. exact IH.
    + exact (ui_matches_same_registry _ _ (same_registry_start s1) IH).
    + pose proof (same_registry_stop s1) as H. rewrite Hstop in H.
      exact (ui_matches_same_registry _ _ H IH).
    + pose proof (same_registry_stop s1) as H. rewrite Hstop in H.
      exact (ui_matches_same_registry _ _ H IH).
    + exact (ui_matches_same_registry _ _ (same_registry_thread_step _ _ Hstep) IH).
Qed.

Lemma widgets_follow_registry_witness :
  reachable first_frame /\
  panel first_frame
  = [Fixed 12; NodeWidget (set_simulator 0 nodeB)] /\
  window first_frame = [SceneWidget; Panel].
Proof.
  assert (Hreach : reachable first_frame).
  { apply (reachable_first_frame (fun _ => True)). exact I. }
  split; [exact Hreach|].
  destruct (widgets_follow_registry first_frame Hreach) as [Hp Hw].
  split; [rewrite Hp|rewrite Hw]; reflexivity.
Defined.

(** ** Who steps which node *)



Lemma filter_split_permutation {A : Type} (f : A -> bool) (l : list A) :
  Permutation (filter (fun a => negb (f a)) l ++ filter f l) l.
Proof.
  induction l as [|a l IH]; simpl; [constructor|].
  destruct (f a); simpl.
  - apply Permutation_sym, Permutation_cons_app, Permutation_sym, IH.
  - constructor. exact IH.
Qed.



Lemma on_own_thread_nodes (s s0 : BaseSimulator) (e : event) :
  _computational_nodes s = _computational_nodes s0 ->
  on_own_thread s e -> on_own_thread s0 e.
Proof.
  unfold on_own_thread. intros ->. exact (fun H => H).
Qed.

Lemma thread_step_on_own_thread (s s' : BaseSimulator) :
  thread_step s s' ->
  exists evs, trace s' = trace s ++ evs /\ Forall (on_own_thread s) evs.
Proof.
  intros [now s1 s2 H | s1 s2 H].
  - apply worker_step_cases in H.
    destruct H as [[_ ->] | [(_ & _ & _ & _ & ->) | [(_ & _ & _ & _ & ->)
                 | [(e & _ & _ & _ & _ & ->) | (_ & _ & ->)]]]].
    + exists []. simpl. rewrite app_nil_r. split; [reflexivity|constructor].
    + eexists. split; [apply trace_frame|].
      constructor; [exact I|]. apply Forall_app. split.
      * apply Forall_forall. intros e He. apply in_map_iff in He.
        destruct He as [n [<- Hn]]. simpl.
        unfold headless_only in Hn. apply filter_In in Hn.
        destruct Hn as [Hin Hc]. apply not_isinstance_VisualNode in Hc.
        exists n. repeat split; assumption.
      * constructor; [exact I|constructor].
    + eexists. split; [reflexivity|]. constructor; [exact I|constructor].
    + eexists. split; [reflexivity|]. constructor; [exact I|constructor].
    + eexists. split; [reflexivity|]. constructor; [exact I|constructor].
  - apply main_thread_step_cases in H. destruct H as [q [_ ->]].
    eexists. split; [reflexivity|].
    apply Forall_forall. intros e He. apply in_map_iff in He.
    destruct He as [n [<- Hn]]. simpl.
    apply filter_In in Hn. destruct Hn as [Hin Hc].
    apply isinstance_VisualNode in Hc.
    exists n. repeat split; assumption.
Qed.

(** X5: throughout a run of the loop every step is made on the thread of
    its node: each step on the worker is the step of a registered node of
    class [HeadlessNode], and each step on the UI thread that of a
    registered node of class [VisualNode]. *)
Theorem steps_stay_on_their_thread (s0 s : BaseSimulator)
    (Hrun : loop_run s0 s) :
  exists delta,
    trace s = trace s0 ++ delta /\
    Forall (on_own_thread s0) delta.
Proof.
  assert (H : _computational_nodes s = _computational_nodes s0 /\
              exists delta, trace s = trace s0 ++ delta /\
                            Forall (on_own_thread s0) delta).
  { induction Hrun as [|s1 s2 Hstep _ (Hn & delta & Ht & Hown)].
    - split; [reflexivity|]. exists []. rewrite app_nil_r.
      split; [reflexivity|constructor].
    - destruct Hstep as [s1 s2 Hstep | s1].
      + destruct (thread_step_frame_cond _ _ Hstep) as (Hn' & _).
        destruct (thread_step_on_own_thread _ _ Hstep) as (evs & Ht' & Hevs).
        split; [congruence|]. exists (delta ++ evs). split.
        * rewrite Ht', Ht. symmetry. apply app_assoc.
        * apply Forall_app. split; [exact Hown|].
          eapply Forall_impl; [|exact Hevs].
          intros e. apply on_own_thread_nodes. exact Hn.
      + split; [exact Hn|]. exists delta. split; [exact Ht|exact Hown]. }
  apply H.
Qed.

Lemma steps_stay_on_their_thread_witness :
  loop_run run_start two_frames /\
  exists delta,
    trace two_frames = trace run_start ++ delta /\
    Forall (on_own_thread run_start) delta.
Proof.
  split; [exact loop_run_two_frames|].
  exact (steps_stay_on_their_thread run_start two_frames loop_run_two_frames).
Defined.

(** ** Stopping a started scheduler *)

Lemma worker_step_finished (now : float) (s : BaseSimulator) :
  _computational_thread s = Finished -> worker_step now s = None.
Proof. unfold worker_step. intros ->. reflexivity. Qed.

Lemma stop_started_effect (s : BaseSimulator) :
  _computational_thread s <> Created ->
  exists s' w,
    stop_computational_thread UIThread s = Returned s' /\
    (w = [] \/ w = [Worker_returned]) /\
    trace s' = trace s ++ w ++ Thread_join
               :: map (fun n => Call_on_pause_computational_thread (node_id n))
                      (_computational_nodes s) /\
    _running s' = false /\
    _computational_thread s' = Finished.
Proof.
  intros Hstarted. rewrite stop_effect.
  destruct (_computational_thread s) as [|pc|] eqn:Hth; [congruence| |].
  - eexists. exists [Worker_returned]. split; [reflexivity|].
    split; [right; reflexivity|].
    destruct pc; simpl; rewrite <- !app_assoc; repeat split.
  - eexists. exists []. split; [reflexivity|].
    split; [left; reflexivity|].
    simpl. rewrite <- !app_assoc. repeat split. exact Hth.
Qed.

(** X6: [stop_computational_thread] on a shell whose thread was started.
    Called on the UI thread it returns: the worker has left its loop before
    the join returns and takes no further step, the running event is clear,
    each registered node is then told of the pause once, in order, and the
    closures already posted to the UI thread are still there.  Called on
    the worker thread while that thread is alive (from the step of a node),
    it clears the event and the join raises [RuntimeError]: no node is told
    of the pause. *)
Theorem stop_joins_then_pauses (s : BaseSimulator)
    (Hstarted : _computational_thread s <> Created) :
  (exists s' w,
     stop_computational_thread UIThread s = Returned s' /\
     (w = [] \/ w = [Worker_returned]) /\
     trace s' = trace s ++ w ++ Thread_join
                :: map (fun n => Call_on_pause_computational_thread (node_id n))
                       (_computational_nodes s) /\
     _running s' = false /\
     _computational_thread s' = Finished /\
     (forall now, worker_step now s' = None) /\
     main_thread_queue s' = main_thread_queue s /\
     _computational_nodes s' = _computational_nodes s) /\
  (forall pc, _computational_thread s = Started pc ->
     stop_computational_thread WorkerThread s
     = Raised RuntimeError (with_running false s)).
Proof.
  split.
  - destruct (stop_started_effect s Hstarted)
      as (s' & w & Hs & Hw & Ht & Hr & Hth).
    exists s', w. repeat (split; [assumption|]).
    split; [intros now; apply worker_step_finished; exact Hth|].
    pose proof (same_registry_stop s) as (Hn & _).
    rewrite Hs in Hn. simpl in Hn. split; [|exact Hn].
    rewrite stop_effect in Hs.
    destruct (_computational_thread s) as [|[|]|]; try discriminate;
      injection Hs as <-; reflexivity.
  - intros pc Hpc. unfold stop_computational_thread, join. simpl.
    rewrite Hpc. reflexivity.
Qed.

Lemma stop_joins_then_pauses_witness :
  _computational_thread first_frame <> Created /\
  (exists s',
     stop_computational_thread UIThread first_frame = Returned s' /\
     _computational_thread s' = Finished /\
     main_thread_queue s' = [display]) /\
  stop_computational_thread WorkerThread first_frame
  = Raised RuntimeError (with_running false first_frame).
Proof.
  split; [discriminate|].
  destruct (stop_joins_then_pauses first_frame) as
    ((s' & w & Hs & _ & _ & _ & Hth & _ & Hq & _) & Hworker).
  - discriminate.
  - split; [|apply (Hworker AtLoop); reflexivity].
    exists s'. split; [exact Hs|]. split; [exact Hth|exact Hq].
Defined.

Lemma paused_nodes_thread_events (evs : list event) :
  forallb thread_event evs = true -> paused_nodes evs = [].
Proof.
  apply flat_map_nil_of_forallb. intros e. destruct e; simpl; congruence.
Qed.

Lemma paused_nodes_fan_out (l : list node) :
  paused_nodes (map (fun n => Call_on_pause_computational_thread (node_id n)) l)
  = map node_id l.
Proof. induction l as [|n l IH]; simpl; [reflexivity|]. f_equal. exact IH. Qed.

Lemma paused_nodes_fan_out_start (l : list node) :
  paused_nodes (map (fun n => Call_on_start_computation_thread (node_id n)) l)
  = [].
Proof. induction l as [|n l IH]; simpl; [reflexivity|exact IH]. Qed.

Lemma started_nodes_fan_out_pause (l : list node) :
  started_nodes (map (fun n => Call_on_pause_computational_thread (node_id n)) l)
  = [].
Proof. induction l as [|n l IH]; simpl; [reflexivity|exact IH]. Qed.

Lemma thread_step_keeps_started (s s' : BaseSimulator) :
  thread_step s s' ->
  _computational_thread s <> Created -> _computational_thread s' <> Created.
Proof.
  intros [now s1 s2 H | s1 s2 H] Hth.
  - apply worker_step_cases in H.
    destruct H as [[_ ->] | [(E & _ & _ & _ & ->) | [(E & _ & _ & _ & ->)
                 | [(e & _ & _ & _ & _ & ->) | (_ & _ & ->)]]]];
      simpl; try discriminate; rewrite E; discriminate.
  - apply main_thread_step_cases in H. destruct H as [q [_ ->]]. exact Hth.
Qed.

(** X7: one cycle of the scheduler, driven from the UI thread, pairs the
    calls: from a Stopped shell, [start], any steps of the two threads,
    then [stop] called on the UI thread tell each registered node of the
    start once and of the pause once, in registration order, and leave the
    scheduler Stopped. *)
Theorem start_stop_cycle_pairs_calls (s s1 : BaseSimulator)
    (Hstopped : _running s = false)
    (Hbetween : clos_refl_trans_n1 BaseSimulator thread_step
                  (start_computational_thread s) s1) :
  exists s2 delta,
    stop_computational_thread UIThread s1 = Returned s2 /\
    trace s2 = trace s ++ delta /\
    started_nodes delta = map node_id (_computational_nodes s) /\
    paused_nodes delta = map node_id (_computational_nodes s) /\
    _running s2 = false /\
    _computational_thread s2 = Finished.
Proof.
  assert (H : _computational_thread s1 <> Created /\
              _computational_nodes s1 = _computational_nodes s /\
              exists delta,
                trace s1 = trace s ++ delta /\
                started_nodes delta = map node_id (_computational_nodes s) /\
                paused_nodes delta = []).
  { induction Hbetween as [|s1 s2 Hstep _ (Hth & Hn & delta & Ht & Hs & Hp)].
    - destruct (start_when_stopped s Hstopped) as (_ & Hth & Hn & Ht).
      split; [rewrite Hth; discriminate|]. split; [exact Hn|].
      eexists. split; [exact Ht|]. split.
      + rewrite started_nodes_app, started_nodes_fan_out. apply app_nil_r.
      + rewrite paused_nodes_app, paused_nodes_fan_out_start. reflexivity.
    - destruct (thread_step_frame_cond _ _ Hstep) as (Hn' & _ & _ & evs & Ht' & Hevs).
      split; [eapply thread_step_keeps_started; eassumption|].
      split; [congruence|]. exists (delta ++ evs). split; [|split].
      + rewrite Ht', Ht. symmetry. apply app_assoc.
      + rewrite started_nodes_app, Hs, (started_nodes_thread_events evs Hevs).
        apply app_nil_r.
      + rewrite paused_nodes_app, Hp. apply paused_nodes_thread_events, Hevs. }
  destruct H as (Hth & Hn & delta & Ht & Hs & Hp).
  destruct (stop_started_effect s1 Hth)
    as (s2 & w & Hstop & Hw & Ht2 & Hr & Hth2).
  exists s2. eexists. split; [exact Hstop|].
  split; [rewrite Ht2, Ht, <- app_assoc; reflexivity|].
  rewrite Hn.
  split; [|split; [|split; assumption]].
  - rewrite !started_nodes_app, Hs.
    change (Thread_join :: ?l) with ([Thread_join] ++ l).
    rewrite started_nodes_app, started_nodes_fan_out_pause.
    destruct Hw as [-> | ->]; simpl; apply app_nil_r.
  - rewrite !paused_nodes_app, Hp.
    change (Thread_join :: ?l) with ([Thread_join] ++ l).
    rewrite paused_nodes_app, paused_nodes_fan_out.
    destruct Hw as [-> | ->]; reflexivity.
Qed.

Lemma start_stop_cycle_pairs_calls_witness :
  _running shell0 = false /\
  exists s2 delta,
    stop_computational_thread UIThread first_frame = Returned s2 /\
    trace s2 = trace shell0 ++ delta /\
    started_nodes delta = [0%nat; 1%nat] /\
    paused_nodes delta = [0%nat; 1%nat].
Proof.
  split; [reflexivity|].
  destruct (start_stop_cycle_pairs_calls shell0 first_frame eq_refl)
    as (s2 & delta & Hstop & Ht & Hs & Hp & _).
  - apply Relation_Operators.rtn1_trans with (y := loop_entry run_start).
    { apply (worker_runs 5). vm_compute. reflexivity. }
    apply Relation_Operators.rtn1_trans with (y := run_start).
    { apply (worker_runs 0). vm_compute. reflexivity. }
    apply rtn1_refl.
  - exists s2, delta. repeat split; assumption.
Defined.

(** ** An exception in the loop *)



(** ** Calls on nodes *)

Lemma quit_effect (s : BaseSimulator) :
  _quit s
  = let s1 := emit [Print_thread_names] (on_exit s) in
    let seen := Some (false, _computational_nodes s) in
    if _running s then
      match _computational_thread s with
      | Created => Raised RuntimeError (with_running false s1)
      | Finished =>
          Returned (emit [Application_quit]
                      (with_nodes []
                         (with_join_saw seen
                            (emit [Thread_join] (with_running false s1)))))
      | Started pc =>
          Returned (emit [Application_quit]
                      (with_nodes []
                         (with_join_saw seen
                            (emit [Worker_returned; Thread_join]
                               (with_thread Finished
                                  match pc with
                                  | AtEntry =>
                                      loop_entry (with_running false s1)
                                  | AtLoop => with_running false s1
                                  end)))))
      end
    else Returned (emit [Application_quit] (with_nodes [] s1)).
Proof.
  unfold _quit, join. simpl.
  destruct (_running s); [|reflexivity]. simpl.
  destruct (_computational_thread s) as [|pc|]; [reflexivity| |reflexivity].
  destruct pc; reflexivity.
Qed.

Lemma calls_registered_app (s : BaseSimulator) (l1 l2 : list event) :
  calls_registered s l1 -> calls_registered s l2 ->
  calls_registered s (l1 ++ l2).
Proof.
  intros H1 H2 e n He. apply in_app_or in He. destruct He as [He|He].
  - apply H1. exact He.
  - apply H2. exact He.
Qed.

Lemma calls_registered_fan_out (s : BaseSimulator) (call : nat -> event)
    (l : list node) :
  (forall n, callee (call n) = Some n) ->
  incl l (_computational_nodes s) ->
  calls_registered s (map (fun n => call (node_id n)) l).
Proof.
  intros Hcall Hincl e n He Hn. apply in_map_iff in He.
  destruct He as [m [<- Hm]]. rewrite Hcall in Hn. injection Hn as <-.
  apply in_map. apply Hincl. exact Hm.
Qed.

Lemma calls_registered_none (s : BaseSimulator) (evs : list event) :
  forallb (fun e => match callee e with None => true | Some _ => false end) evs
  = true ->
  calls_registered s evs.
Proof.
  intros H e n He Hn. rewrite forallb_forall in H. specialize (H e He).
  rewrite Hn in H. discriminate.
Qed.

Lemma thread_step_calls_registered (s s' : BaseSimulator) :
  thread_step s s' ->
  exists evs, trace s' = trace s ++ evs /\ calls_registered s evs.
Proof.
  intros [now s1 s2 H | s1 s2 H].
  - apply worker_step_cases in H.
    destruct H as [[_ ->] | [(_ & _ & _ & _ & ->) | [(_ & _ & _ & _ & ->)
                 | [(e & _ & _ & _ & _ & ->) | (_ & _ & ->)]]]].
    + exists []. simpl. rewrite app_nil_r. split; [reflexivity|].
      apply calls_registered_none. reflexivity.
    + eexists. split; [apply trace_frame|].
      apply (calls_registered_app s1 [Set_last_animation_time now]).
      { apply calls_registered_none. reflexivity. }
      apply calls_registered_app.
      * apply calls_registered_fan_out; [reflexivity|].
        unfold headless_only. intros n Hn. apply filter_In in Hn. apply Hn.
      * apply calls_registered_none. reflexivity.
    + eexists. split; [reflexivity|]. apply calls_registered_none. reflexivity.
    + eexists. split; [reflexivity|]. apply calls_registered_none. reflexivity.
    + eexists. split; [reflexivity|]. apply calls_registered_none. reflexivity.
  - apply main_thread_step_cases in H. destruct H as [q [_ ->]].
    eexists. split; [reflexivity|].
    apply calls_registered_fan_out; [reflexivity|].
    simpl. intros n Hn. apply filter_In in Hn. apply Hn.
Qed.

Lemma lifecycle_step_calls_registered (s s' : BaseSimulator) :
  lifecycle_step s s' ->
  (_computational_nodes s' = _computational_nodes s \/
   _computational_nodes s' = []) /\
  exists evs, trace s' = trace s ++ evs /\ calls_registered s evs.
Proof.
  intros [s1 | s1 | s1 | s1 | s1 s2 Hstep].
  - split; [left; reflexivity|].
    eexists. split; [unfold run, on_start, fan_out; simpl;
                     rewrite <- app_assoc; reflexivity|].
    apply calls_registered_app.
    + apply calls_registered_fan_out; [reflexivity|apply incl_refl].
    + apply calls_registered_none. reflexivity.
  - split; [left; apply same_registry_start|].
    unfold start_computational_thread. destruct (_running s1); simpl.
    + exists []. rewrite app_nil_r. split; [reflexivity|].
      apply calls_registered_none. reflexivity.
    + eexists. split; [rewrite <- app_assoc; reflexivity|].
      apply calls_registered_app.
      * apply calls_registered_fan_out; [reflexivity|apply incl_refl].
      * apply calls_registered_none. reflexivity.
  - split; [left; apply same_registry_stop|].
    rewrite stop_effect.
    destruct (_computational_thread s1) as [|[|]|]; simpl.
    + exists []. rewrite app_nil_r. split; [reflexivity|].
      apply calls_registered_none. reflexivity.
    + eexists. split; [rewrite <- app_assoc; reflexivity|].
      apply (calls_registered_app s1 [Worker_returned; Thread_join]).
      * apply calls_registered_none. reflexivity.
      * apply calls_registered_fan_out; [reflexivity|apply incl_refl].
    + eexists. split; [rewrite <- app_assoc; reflexivity|].
      apply (calls_registered_app s1 [Worker_returned; Thread_join]).
      * apply calls_registered_none. reflexivity.
      * apply calls_registered_fan_out; [reflexivity|apply incl_refl].
    + eexists. split; [rewrite <- app_assoc; reflexivity|].
      apply (calls_registered_app s1 [Thread_join]).
      * apply calls_registered_none. reflexivity.
      * apply calls_registered_fan_out; [reflexivity|apply incl_refl].
  - rewrite quit_effect. cbv zeta.
    destruct (_running s1); [destruct (_computational_thread s1) as [|[|]|]|];
      simpl.
    + split; [left; reflexivity|].
      eexists. split; [rewrite <- app_assoc; reflexivity|].
      apply calls_registered_app.
      * apply calls_registered_fan_out; [reflexivity|apply incl_refl].
      * apply calls_registered_none. reflexivity.
    + split; [right; reflexivity|].
      eexists. split; [rewrite <- !app_assoc; reflexivity|].
      apply calls_registered_app.
      * apply calls_registered_fan_out; [reflexivity|apply incl_refl].
      * apply calls_registered_none. reflexivity.
    + split; [right; reflexivity|].
      eexists. split; [rewrite <- !app_assoc; reflexivity|].
      apply calls_registered_app.
      * apply calls_registered_fan_out; [reflexivity|apply incl_refl].
      * apply calls_registered_none. reflexivity.
    + split; [right; reflexivity|].
      eexists. split; [rewrite <- !app_assoc; reflexivity|].
      apply calls_registered_app.
      * apply calls_registered_fan_out; [reflexivity|apply incl_refl].
      * apply calls_registered_none. reflexivity.
    + split; [right; reflexivity|].
      eexists. split; [rewrite <- !app_assoc; reflexivity|].
      apply calls_registered_app.
      * apply calls_registered_fan_out; [reflexivity|apply incl_refl].
      * apply calls_registered_none. reflexivity.
  - split; [left; apply (same_registry_thread_step _ _ Hstep)|].
    apply thread_step_calls_registered. exact Hstep.
Qed.

(** X10: once the close handler has returned, no node is called any more,
    whatever follows ([run], [start], [stop], a second close, steps of the
    worker or of closures still posted): the registry stays empty, every
    event is dispatched to nobody and reported [IGNORED]. *)
Theorem nothing_called_after_close (s0 s s' : BaseSimulator)
    (Hquit : _quit s0 = Returned s)
    (Hafter : clos_refl_trans_n1 BaseSimulator lifecycle_step s s') :
  _computational_nodes s' = [] /\
  (exists delta,
     trace s' = trace s ++ delta /\
     forall e, In e delta -> callee e = None) /\
  forall (World Ev : Type)
         (handler : node -> Ev -> World -> EventCallbackResult * World)
         (ev : Ev) (w : World),
    _on_key handler s' ev w = (IGNORED, w, []) /\
    _on_mouse_3d handler s' ev w = (IGNORED, w, []).
Proof.
  assert (Hs : _computational_nodes s = []).
  { rewrite quit_effect in Hquit. cbv zeta in Hquit.
    destruct (_running s0); [destruct (_computational_thread s0) as [|[|]|]|];
      try discriminate; injection Hquit as <-; reflexivity. }
  assert (H : _computational_nodes s' = [] /\
              exists delta, trace s' = trace s ++ delta /\
                            forall e, In e delta -> callee e = None).
  { induction Hafter as [|s1 s2 Hstep _ (Hn & delta & Ht & Hd)].
    - split; [exact Hs|]. exists []. rewrite app_nil_r.
      split; [reflexivity|]. intros e [].
    - destruct (lifecycle_step_calls_registered _ _ Hstep)
        as (Hn' & evs & Ht' & Hevs).
      split; [destruct Hn' as [-> | ->]; [exact Hn|reflexivity]|].
      exists (delta ++ evs). split; [rewrite Ht', Ht; symmetry; apply app_assoc|].
      intros e He. apply in_app_or in He. destruct He as [He|He].
      + apply Hd. exact He.
      + destruct (callee e) as [n|] eqn:Hc; [|reflexivity].
        specialize (Hevs e n He Hc). rewrite Hn in Hevs. destruct Hevs. }
  destruct H as (Hn & Hd). split; [exact Hn|]. split; [exact Hd|].
  intros World Ev handler ev w. unfold _on_key, _on_mouse_3d. rewrite Hn.
  split; reflexivity.
Qed.

Lemma nothing_called_after_close_witness :
  exists s,
    _quit first_frame = Returned s /\
    main_thread_queue s = [display] /\
    exists s',
      main_thread_step (start_computational_thread s) = Some s' /\
      _computational_nodes s' = [] /\
      exists delta, trace s' = trace s ++ delta /\
                    forall e, In e delta -> callee e = None.
Proof.
  eexists. split; [vm_compute; reflexivity|]. split; [reflexivity|].
  eexists. split; [vm_compute; reflexivity|].
  match goal with
  | |- _computational_nodes ?b = [] /\ (exists delta, trace ?b = trace ?a ++ delta /\ _) =>
      destruct (nothing_called_after_close first_frame a b) as (Hn & Hd & _)
  end.
  - vm_compute. reflexivity.
  - apply Relation_Operators.rtn1_trans
      with (y := start_computational_thread
                   (state_of (_quit first_frame))).
    { apply lifecycle_thread_step, main_thread_runs. vm_compute. reflexivity. }
    apply Relation_Operators.rtn1_trans with (y := state_of (_quit first_frame)).
    { apply lifecycle_start. }
    apply rtn1_refl.
  - split; [exact Hn|exact Hd].
Defined.

(** ** The running event and the thread *)








(** ** The layout handler *)

(** X12: the layout handler asks exactly the Visual nodes for their layout,
    in registration order, and none of the nodes the worker steps; the
    scene starts at the origin of the content rectangle, its right edge is
    the left edge of the panel, and its bottom edge is at the height of the
    content rectangle; its width is negative when the panel starts left of
    the content. *)
Theorem on_layout_scene_meets_panel (s : BaseSimulator)
    (content_rect panel_rect : gui.Rect) :
  let laid_out := fst (_on_layout s content_rect panel_rect) in
  let scene := snd (_on_layout s content_rect panel_rect) in
  laid_out = get_nodes VisualNode s /\
  (forall n, In n laid_out -> ~ In n (headless_only s)) /\
  Permutation (headless_only s ++ laid_out) (_computational_nodes s) /\
  gui.x scene = gui.x content_rect /\
  gui.y scene = gui.y content_rect /\
  gui.x scene + gui.width scene = gui.x panel_rect /\
  gui.y scene + gui.height scene = gui.height content_rect /\
  (gui.width scene < 0 <-> gui.x panel_rect < gui.x content_rect).
Proof.
  unfold _on_layout, get_nodes.
  cbn [fst snd gui.x gui.y gui.width gui.height].
  split; [reflexivity|]. split; [|split].
  - intros n Hn Hh. apply filter_In in Hn. unfold headless_only in Hh.
    apply filter_In in Hh. destruct Hn as [_ Hv]. destruct Hh as [_ Hh].
    cbv beta in Hv, Hh. rewrite Hv in Hh. discriminate.
  - unfold headless_only. apply filter_split_permutation.
  - repeat split; lia.
Qed.

(** ** Exceptions *)

Lemma string_append_inj (p a b : string) :
  (p ++ a)%string = (p ++ b)%string -> a = b.
Proof.
  induction p as [|c p IH]; simpl; intros H; [exact H|].
  injection H as H. apply IH. exact H.
Qed.

(** X13: the message of a [DuplicateNameException] is the fixed text
    followed by the name, so that the exception keeps the name, two
    different names never give the same message, and the message is never
    that of [NullMeshObjectException]. *)
Theorem DuplicateNameException_message_names (n1 n2 : string) :
  Exceptions.name (Exceptions.DuplicateNameException_init n1) = n1 /\
  (Exceptions.message (Exceptions.DuplicateNameException_init n1)
   = Exceptions.message (Exceptions.DuplicateNameException_init n2)
   <-> n1 = n2) /\
  String.length (Exceptions.message (Exceptions.DuplicateNameException_init n1))
  = (41 + String.length n1)%nat /\
  Exceptions.message (Exceptions.DuplicateNameException_init n1)
  <> Exceptions.NullMeshObjectException_message.
Proof.
  split; [reflexivity|]. split; [|split].
  - split.
    + apply string_append_inj.
    + intros ->. reflexivity.
  - reflexivity.
  - discriminate.
Qed.

(** ** Decorators *)

Section Decorators.
Import Debugging.
Variables A R : Type.
Variable func : callable A R.

(** X14: a function wrapped by [Open3DErrorProtect] never raises an
    exception that derives from [Exception] and always returns [None],
    whatever the function returns; when the function raises such an
    exception its message is printed and the application is asked to quit,
    once; when it returns, nothing is printed and nothing quits. *)
Theorem Open3DErrorProtect_catches (args : A) (p : process) :
  (forall e p', Open3DErrorProtect func args p = (Raises e, p') ->
                derives_Exception e = false /\ func args p = (Raises e, p')) /\
  (forall v p', Open3DErrorProtect func args p = (Returns v, p') -> v = None) /\
  (forall r p1, func args p = (Returns r, p1) ->
                Open3DErrorProtect func args p = (Returns None, p1)) /\
  (forall e p1, func args p = (Raises e, p1) -> derives_Exception e = true ->
                exists p',
                  Open3DErrorProtect func args p = (Returns None, p') /\
                  stdout p' = stdout p1 ++ [Printed_str (str e)] /\
                  quit_calls p' = S (quit_calls p1) /\
                  clock p' = clock p1).
Proof.
  unfold Open3DErrorProtect.
  destruct (func args p) as [[r|e] p1]; [|destruct (derives_Exception e) eqn:He].
  - repeat split; try discriminate.
    + intros v p' H. injection H as <- _. reflexivity.
    + intros r' p1' H. injection H as _ <-. reflexivity.
  - repeat split; try discriminate.
    + intros v p' H. injection H as <- _. reflexivity.
    + intros e' p1' H _. injection H as <- <-.
      eexists. repeat split.
  - repeat split; try discriminate.
    + injection H as <- _. exact He.
    + injection H as <- <-. reflexivity.
    + intros e' p1' H He'. injection H as <- _. congruence.
Qed.

(** X15: [timeit] changes neither the value a function returns nor the
    exception it raises; when the function returns it prints the time that
    passed on the clock during the call, and when the function raises it
    prints nothing. *)
Theorem timeit_is_transparent (args : A) (p : process) :
  fst (timeit func args p) = fst (func args p) /\
  (forall r p1, func args p = (Returns r, p1) ->
                snd (timeit func args p)
                = print (Printed_time (clock p1 - clock p)) p1) /\
  (forall e p1, func args p = (Raises e, p1) ->
                snd (timeit func args p) = p1).
Proof.
  unfold timeit. destruct (func args p) as [[r|e] p1]; simpl.
  - split; [reflexivity|]. split.
    + intros r' p1' H. injection H as _ <-. reflexivity.
    + intros e p1' H. discriminate.
  - split; [reflexivity|]. split.
    + intros r p1' H. discriminate.
    + intros e' p1' H. injection H as _ <-. reflexivity.
Qed.

(** X16: how the two decorators compose.  When the function raises an
    exception deriving from [Exception], [timeit] outside the protection
    still prints a time, after the message, while [timeit] inside prints
    none; in both orders the message is printed and the application asked
    to quit once, and the value is [None].  Protecting twice is protecting
    once. *)
Theorem decorators_compose (args : A) (p : process) :
  (forall e p1, func args p = (Raises e, p1) -> derives_Exception e = true ->
     timeit (Open3DErrorProtect func) args p
     = (Returns None,
        print (Printed_time (clock p1 - clock p))
              (application_quit (print (Printed_str (str e)) p1))) /\
     Open3DErrorProtect (timeit func) args p
     = (Returns None, application_quit (print (Printed_str (str e)) p1))) /\
  (forall r p1, func args p = (Returns r, p1) ->
     timeit (Open3DErrorProtect func) args p
     = (Returns None, print (Printed_time (clock p1 - clock p)) p1) /\
     Open3DErrorProtect (timeit func) args p
     = (Returns None, print (Printed_time (clock p1 - clock p)) p1)) /\
  snd (Open3DErrorProtect (Open3DErrorProtect func) args p)
  = snd (Open3DErrorProtect func args p) /\
  (forall e p',
     Open3DErrorProtect (Open3DErrorProtect func) args p = (Raises e, p')
     <-> Open3DErrorProtect func args p = (Raises e, p')).
Proof.
  unfold timeit, Open3DErrorProtect.
  destruct (func args p) as [[r|e] p1]; [|destruct (derives_Exception e) eqn:He];
    simpl; rewrite ?He; simpl.
  - split; [intros e p1' H; discriminate|]. split.
    + intros r' p1' H. injection H as _ <-. split; reflexivity.
    + split; [reflexivity|]. intros e p'. split; intros H; discriminate.
  - split.
    + intros e' p1' H _. injection H as <- <-. split; reflexivity.
    + split; [intros r p1' H; discriminate|].
      split; [reflexivity|]. intros e' p'. split; intros H; discriminate.
  - split.
    + intros e' p1' H He'. injection H as <- _. congruence.
    + split; [intros r p1' H; discriminate|].
      split; [reflexivity|]. intros e' p'.
      split; intros H; injection H as <- <-; reflexivity.
Qed.
End Decorators.

(** ** Device selection *)

(** X17: the package computes on [CUDA:0], and says so, exactly when the
    Open3D build is the cuda one and [cuda] is one of the command-line
    arguments; in every other case the device is [CPU:0] and nothing is
    printed, also when [cuda] was asked for on a cpu build; the modules are
    those of the build, whatever the command line. *)
Theorem device_is_cuda_iff (argv : list string) (DEVICE_API : string) :
  let pkg := o3dElements.import argv DEVICE_API in
  (o3dElements.device pkg = "CUDA:0"%string
   <-> In "cuda"%string argv /\ DEVICE_API = "cuda"%string) /\
  (o3dElements.device pkg = "CUDA:0"%string \/
   o3dElements.device pkg = "CPU:0"%string) /\
  (o3dElements.printed pkg = ["Using Cuda"%string]
   <-> o3dElements.device pkg = "CUDA:0"%string) /\
  (o3dElements.device pkg = "CPU:0"%string -> o3dElements.printed pkg = []) /\
  (o3dElements.modules pkg = o3dElements.cuda_pybind
   <-> DEVICE_API = "cuda"%string) /\
  (o3dElements.cuda pkg = true <-> In "cuda"%string argv).
Proof.
  assert (Hin : existsb (String.eqb "cuda") argv = true
                <-> In "cuda"%string argv).
  { rewrite existsb_exists. split.
    - intros [a [Ha He]]. apply String.eqb_eq in He. subst a. exact Ha.
    - intros H. exists "cuda"%string. split; [exact H|apply String.eqb_refl]. }
  unfold o3dElements.import.
  destruct (String.eqb DEVICE_API "cuda") eqn:Hapi.
  - apply String.eqb_eq in Hapi.
    destruct (existsb (String.eqb "cuda") argv) eqn:Hc; simpl;
      intuition (auto; try discriminate; try congruence).
  - apply String.eqb_neq in Hapi. simpl.
    intuition (auto; try discriminate; try congruence).
Qed.

(** ** The frame-in-flight gate *)

Lemma gate_holds_sched_step (s s' : BaseSimulator) :
  gate_holds s -> sched_step_when start_without_task s s' -> gate_holds s'.
Proof.
  intros [Hone Hflag] Hstep.
  split; [eapply one_task_sched_step; eassumption|].
  destruct Hone as (_ & Hfin & Hent).
  destruct Hstep as [n s | s Hmay | s s' Hstop | e s s' Hstop | s s' Hstep].
  - destruct (register_node_scheduler n s) as (-> & -> & _). exact Hflag.
  - destruct (start_scheduler s) as (-> & ->). exact Hflag.
  - rewrite stop_effect in Hstop.
    destruct (_computational_thread s) as [|[|]|];
      try discriminate; injection Hstop as <-; simpl;
      try exact Hflag. discriminate.
  - rewrite stop_effect in Hstop.
    destruct (_computational_thread s); try discriminate.
    injection Hstop as _ <-. exact Hflag.
  - destruct Hstep as [now s1 s2 H | s1 s2 H].
    + apply worker_step_cases in H.
      destruct H as [[_ ->] | [(_ & _ & Hf & _ & ->) | [(_ & _ & _ & _ & ->)
                   | [(e & _ & _ & _ & _ & ->) | (_ & _ & ->)]]]];
        simpl; try exact Hflag; try discriminate.
      intros _. rewrite (Hfin Hf). reflexivity.
    + apply main_thread_step_cases in H. destruct H as [q [_ ->]].
      simpl. discriminate.
Qed.

(** X18: as long as the scheduler is not started while a closure of an
    earlier run still waits, the flag [main_thread_finished] gates the
    closures: at most one Visual-step closure is outstanding, none when the
    flag is set and exactly one when it is not; a step posts a closure only
    when the flag is set and clears it with the post; and the flag is set
    again only by that closure running. *)
Theorem at_most_one_task_outstanding (s : BaseSimulator)
    (Hreach : reachable_when start_without_task s) :
  at_most_one_task s /\
  (main_thread_finished s = true -> main_thread_queue s = []) /\
  (main_thread_finished s = false -> main_thread_queue s = [display]) /\
  forall s', sched_step_when start_without_task s s' ->
    ((length (main_thread_queue s) < length (main_thread_queue s'))%nat ->
     main_thread_finished s = true /\
     main_thread_finished s' = false /\
     main_thread_queue s' = main_thread_queue s ++ [display]) /\
    (main_thread_finished s = false -> main_thread_finished s' = true ->
     main_thread_queue s = display :: main_thread_queue s').
Proof.
  assert (H : gate_holds s).
  { destruct Hreach as (self & title & width & height & font_size & Hrun).
    induction Hrun as [|s1 s2 Hstep _ IH].
    - split; [|simpl; discriminate].
      unfold one_task_in_flight, at_most_one_task. simpl. repeat split; auto.
    - eapply gate_holds_sched_step; eassumption. }
  destruct H as ((Hlen & Hfin & Hent) & Hflag).
  split; [exact Hlen|]. split; [exact Hfin|]. split; [exact Hflag|].
  intros s' Hstep.
  assert (Hd : flag_discipline s s').
  { apply flag_discipline_sched_step.
    destruct Hstep as [n s | s Hmay | s s' Hstop | e s s' Hstop | s s' Hstep].
    - apply sched_register.
    - apply sched_start. exact I.
    - apply sched_stop. exact Hstop.
    - eapply sched_stop_raised. exact Hstop.
    - apply sched_thread_step. exact Hstep. }
  destruct Hd as [Hgrow Hclear]. split; [exact Hgrow|].
  intros Hf Hf'. destruct (Hclear Hf Hf') as [Hq | Hth]; [exact Hq|].
  exfalso. specialize (Hent Hth). specialize (Hflag Hf).
  rewrite Hent in Hflag. discriminate.
Qed.

Lemma at_most_one_task_outstanding_witness :
  reachable_when start_without_task first_frame /\
  main_thread_finished first_frame = false /\
  main_thread_queue first_frame = [display] /\
  at_most_one_task first_frame.
Proof.
  assert (Hreach : reachable_when start_without_task first_frame).
  { apply reachable_first_frame. intros _. reflexivity. }
  split; [exact Hreach|]. split; [reflexivity|].
  destruct (at_most_one_task_outstanding first_frame Hreach)
    as (Hlen & _ & Hflag & _).
  split; [apply Hflag; reflexivity|exact Hlen].
Defined.
